(** * ML8s training pipeline: run identity and idempotent artifact cache

    A shallow embedding of [training_pipeline/config.py] and
    [training_pipeline/pipeline.py].

    Conventions of the embedding.
    - A Python [str] is a Rocq [string] holding its UTF-8 bytes, so
      [s.encode("utf-8")] is the identity on the underlying bytes; the
      character-level operations ([strip], [lower], [\d]) are the ASCII
      ones.
    - Python [int] is [Z]; Python [float] is a binary64 [float].  The two
      conversions between floats and text ([float(s)] and [repr]) belong to
      the Python runtime and are taken as parameters.
    - A raised exception is a value of [exn]; fallible code returns
      [result]. *)

From Stdlib Require Import ZArith NArith Ascii String List Lia DecimalString PrimFloat.
From Stdlib Require Import FloatOps SpecFloat.
From stdpp Require Import base option list sorting strings gmap.

Set Warnings "-register-all,-clear-no-such-hyp".
Set Default Proof Using "Type".

Local Open Scope string_scope.
Local Open Scope Z_scope.

(** ** Exceptions and results *)

Inductive exn :=
  | RuntimeError (msg : string)
  | BackendError (op path : string)
  | TypeError (msg : string)
  | AttributeError (name : string).

Inductive result (A : Type) :=
  | Ok (a : A)
  | Raise (e : exn).
Arguments Ok {A} a.
Arguments Raise {A} e.

#[global] Instance result_ret : MRet result := fun A a => Ok a.

#[global] Instance result_bind : MBind result := fun A B k r =>
  match r with
  | Ok a => k a
  | Raise e => Raise e
  end.


(** What a validator of [PlatformConfig] does: it returns a value or
    raises a [ValueError]; [ConversionError] is the exception of an
    [int(x)] that fails. *)
Inductive checked (A : Type) :=
  | Valid (a : A)
  | ValueError (msg : string)
  | ConversionError.
Arguments Valid {A} a.
Arguments ValueError {A} msg.
Arguments ConversionError {A}.


(** ** Python values *)

Inductive pyval :=
  | VNone
  | VBool (b : bool)
  | VInt (z : Z)
  | VFloat (f : float)
  | VStr (s : string)
  | VList (l : list pyval)
  | VDict (d : list (string * pyval)).

(** ** String primitives *)

Module PyStr.

Definition code (c : ascii) : N := N_of_ascii c.

(** [str.isspace] on the ASCII range. *)
Definition is_space (c : ascii) : bool :=
  let n := code c in
  ((9 <=? n) && (n <=? 13) || (28 <=? n) && (n <=? 32))%N.

Definition is_digit (c : ascii) : bool :=
  let n := code c in ((48 <=? n) && (n <=? 57))%N.

Definition lower_char (c : ascii) : ascii :=
  let n := code c in
  if ((65 <=? n) && (n <=? 90))%N then ascii_of_N (n + 32) else c.

Fixpoint lower (s : string) : string :=
  match s with
  | EmptyString => EmptyString
  | String c s' => String (lower_char c) (lower s')
  end.

Fixpoint lstrip (s : string) : string :=
  match s with
  | String c s' => if is_space c then lstrip s' else s
  | EmptyString => EmptyString
  end.

Definition rstrip (s : string) : string :=
  String.rev (lstrip (String.rev s)).

Definition strip (s : string) : string := rstrip (lstrip s).

(** [s.rstrip("/")] *)
Fixpoint lstrip_char (c : ascii) (s : string) : string :=
  match s with
  | String a s' => if Ascii.eqb a c then lstrip_char c s' else s
  | EmptyString => EmptyString
  end.

Definition rstrip_char (c : ascii) (s : string) : string :=
  String.rev (lstrip_char c (String.rev s)).

(** [s.split(sep)] for a one-character separator: every separator cuts,
    empty pieces are kept. *)
Fixpoint split_go (sep : ascii) (cur : string) (s : string) : list string :=
  match s with
  | EmptyString => [String.rev cur]
  | String c s' =>
      if Ascii.eqb c sep then String.rev cur :: split_go sep EmptyString s'
      else split_go sep (String c cur) s'
  end.

Definition split (sep : ascii) (s : string) : list string :=
  split_go sep EmptyString s.

(** [sep in s] for a one-character [sep]. *)
Fixpoint contains_char (c : ascii) (s : string) : bool :=
  match s with
  | EmptyString => false
  | String a s' => Ascii.eqb a c || contains_char c s'
  end.

Definition startswith (p s : string) : bool := String.prefix p s.

Definition endswith (p s : string) : bool :=
  String.prefix (String.rev p) (String.rev s).

(** [s[:n]] *)
Fixpoint take (n : nat) (s : string) : string :=
  match n, s with
  | S n', String c s' => String c (take n' s')
  | _, _ => EmptyString
  end.

(** [s[n:]] *)
Fixpoint drop (n : nat) (s : string) : string :=
  match n, s with
  | S n', String _ s' => drop n' s'
  | _, _ => s
  end.

(** [sep.join(l)] *)
Fixpoint join (sep : string) (l : list string) : string :=
  match l with
  | [] => ""
  | [x] => x
  | x :: l' => x ++ sep ++ join sep l'
  end.

Fixpoint all_chars (p : ascii → bool) (s : string) : bool :=
  match s with
  | EmptyString => true
  | String c s' => p c && all_chars p s'
  end.

(** [str(n)] for an [int]. *)
Definition of_Z (z : Z) : string := NilZero.string_of_int (Z.to_int z).

Definition digit_val (c : ascii) : Z := Z.of_N (code c) - 48.

Fixpoint digits_to_Z (acc : Z) (s : string) : Z :=
  match s with
  | EmptyString => acc
  | String c s' => digits_to_Z (10 * acc + digit_val c) s'
  end.

(** The one-character strings of a double quote and of a line feed. *)
Definition dquote : string := String (ascii_of_N 34) EmptyString.
Definition newline : string := String (ascii_of_N 10) EmptyString.

Definition spaces (n : nat) : string :=
  string_of_list_ascii (replicate n " "%char).

(** The bytes of [s.encode("utf-8")]. *)
Definition bytes (s : string) : list Z :=
  (fun c => Z.of_N (code c)) <$> list_ascii_of_string s.

Definition of_bytes (l : list Z) : string :=
  string_of_list_ascii ((fun z => ascii_of_N (Z.to_N z)) <$> l).

End PyStr.

(** ** [hashlib]: SHA-256 (FIPS 180-4) and MD5 (RFC 1321) on byte lists *)

Module Hashlib.

Definition w32 (x : Z) : Z := x mod 2 ^ 32.
Definition add32 (x y : Z) : Z := w32 (x + y).
Definition not32 (x : Z) : Z := 2 ^ 32 - 1 - x.
Definition rotr32 (n x : Z) : Z :=
  w32 (Z.lor (Z.shiftr x n) (Z.shiftl x (32 - n))).
Definition rotl32 (n x : Z) : Z := rotr32 (32 - n) x.

Fixpoint chunk_go (fuel k : nat) (l : list Z) : list (list Z) :=
  match fuel with
  | O => []
  | S fuel' =>
      match l with
      | [] => []
      | _ => take k l :: chunk_go fuel' k (drop k l)
      end
  end.

Definition chunk (k : nat) (l : list Z) : list (list Z) :=
  chunk_go (length l) k l.

Definition be_word (l : list Z) : Z := foldl (fun acc b => acc * 256 + b) 0 l.
Definition le_word (l : list Z) : Z := be_word (reverse l).

(** The [k] low bytes of [x], most significant first. *)
Fixpoint be_bytes (k : nat) (x : Z) : list Z :=
  match k with
  | O => []
  | S k' => be_bytes k' (x / 256) ++ [x mod 256]
  end.

Definition le_bytes (k : nat) (x : Z) : list Z := reverse (be_bytes k x).

(** Number of zero bytes after the [0x80] marker so that the padded
    message, with its 8 length bytes, fills whole 64-byte blocks. *)
Definition pad_zeros (len : nat) : nat :=
  Z.to_nat ((55 - Z.of_nat len) mod 64).

Definition hex_digit (n : Z) : ascii :=
  ascii_of_N (Z.to_N (if n <? 10 then 48 + n else 87 + n)).

Definition hex_byte (b : Z) : string :=
  String (hex_digit (b / 16)) (String (hex_digit (b mod 16)) EmptyString).

(** [bytes.hex()] *)
Definition hexlify (l : list Z) : string :=
  foldr (fun b acc => hex_byte b ++ acc) "" l.

(** *** SHA-256 *)

Definition K256 : list Z :=
  [ 1116352408; 1899447441; 3049323471; 3921009573; 961987163; 1508970993;
    2453635748; 2870763221; 3624381080; 310598401; 607225278; 1426881987;
    1925078388; 2162078206; 2614888103; 3248222580; 3835390401; 4022224774;
    264347078; 604807628; 770255983; 1249150122; 1555081692; 1996064986;
    2554220882; 2821834349; 2952996808; 3210313671; 3336571891; 3584528711;
    113926993; 338241895; 666307205; 773529912; 1294757372; 1396182291;
    1695183700; 1986661051; 2177026350; 2456956037; 2730485921; 2820302411;
    3259730800; 3345764771; 3516065817; 3600352804; 4094571909; 275423344;
    430227734; 506948616; 659060556; 883997877; 958139571; 1322822218;
    1537002063; 1747873779; 1955562222; 2024104815; 2227730452; 2361852424;
    2428436474; 2756734187; 3204031479; 3329325298 ].

Definition H256 : list Z :=
  [ 1779033703; 3144134277; 1013904242; 2773480762;
    1359893119; 2600822924; 528734635; 1541459225 ].

Definition sha_pad (msg : list Z) : list Z :=
  msg ++ [128] ++ replicate (pad_zeros (length msg)) 0
      ++ be_bytes 8 (8 * Z.of_nat (length msg)).

Definition ssig0 (x : Z) : Z :=
  Z.lxor (Z.lxor (rotr32 7 x) (rotr32 18 x)) (Z.shiftr x 3).
Definition ssig1 (x : Z) : Z :=
  Z.lxor (Z.lxor (rotr32 17 x) (rotr32 19 x)) (Z.shiftr x 10).
Definition bsig0 (x : Z) : Z :=
  Z.lxor (Z.lxor (rotr32 2 x) (rotr32 13 x)) (rotr32 22 x).
Definition bsig1 (x : Z) : Z :=
  Z.lxor (Z.lxor (rotr32 6 x) (rotr32 11 x)) (rotr32 25 x).
Definition ch (x y z : Z) : Z := Z.lxor (Z.land x y) (Z.land (not32 x) z).
Definition maj (x y z : Z) : Z :=
  Z.lxor (Z.lxor (Z.land x y) (Z.land x z)) (Z.land y z).

(** The message schedule, newest word first. *)
Fixpoint schedule (n : nat) (rev_w : list Z) : list Z :=
  match n with
  | O => rev_w
  | S n' =>
      let w i := nth i rev_w 0 in
      schedule n'
        (add32 (add32 (ssig1 (w 1%nat)) (w 6%nat))
               (add32 (ssig0 (w 14%nat)) (w 15%nat)) :: rev_w)
  end.

Record sha_state := ShaState { sa : Z; sb : Z; sc : Z; sd : Z;
                               se : Z; sf : Z; sg : Z; sh : Z }.

Definition sha_round (st : sha_state) (kw : Z * Z) : sha_state :=
  let t1 := add32 (add32 (add32 (sh st) (bsig1 (se st)))
                         (add32 (ch (se st) (sf st) (sg st)) kw.1)) kw.2 in
  let t2 := add32 (bsig0 (sa st)) (maj (sa st) (sb st) (sc st)) in
  ShaState (add32 t1 t2) (sa st) (sb st) (sc st)
           (add32 (sd st) t1) (se st) (sf st) (sg st).

Definition sha_block (st : sha_state) (block : list Z) : sha_state :=
  let w := reverse (schedule 48 (reverse (be_word <$> chunk 4 block))) in
  let st' := foldl sha_round st (zip K256 w) in
  ShaState (add32 (sa st) (sa st')) (add32 (sb st) (sb st'))
           (add32 (sc st) (sc st')) (add32 (sd st) (sd st'))
           (add32 (se st) (se st')) (add32 (sf st) (sf st'))
           (add32 (sg st) (sg st')) (add32 (sh st) (sh st')).

Definition sha_init : sha_state :=
  ShaState 1779033703 3144134277 1013904242 2773480762
           1359893119 2600822924 528734635 1541459225.

Definition sha_words (st : sha_state) : list Z :=
  [sa st; sb st; sc st; sd st; se st; sf st; sg st; sh st].

Definition sha256_digest (msg : list Z) : list Z :=
  sha_words (foldl sha_block sha_init (chunk 64 (sha_pad msg)))
    ≫= be_bytes 4.

(** [hashlib.sha256(msg).hexdigest()] *)
Definition sha256_hex (msg : list Z) : string := hexlify (sha256_digest msg).

(** *** MD5 *)

Definition md5_shifts : list Z :=
  [ 7; 12; 17; 22; 7; 12; 17; 22; 7; 12; 17; 22; 7; 12; 17; 22;
    5; 9; 14; 20; 5; 9; 14; 20; 5; 9; 14; 20; 5; 9; 14; 20;
    4; 11; 16; 23; 4; 11; 16; 23; 4; 11; 16; 23; 4; 11; 16; 23;
    6; 10; 15; 21; 6; 10; 15; 21; 6; 10; 15; 21; 6; 10; 15; 21 ].

Definition md5_K : list Z :=
  [ 3614090360; 3905402710; 606105819; 3250441966; 4118548399; 1200080426;
    2821735955; 4249261313; 1770035416; 2336552879; 4294925233; 2304563134;
    1804603682; 4254626195; 2792965006; 1236535329; 4129170786; 3225465664;
    643717713; 3921069994; 3593408605; 38016083; 3634488961; 3889429448;
    568446438; 3275163606; 4107603335; 1163531501; 2850285829; 4243563512;
    1735328473; 2368359562; 4294588738; 2272392833; 1839030562; 4259657740;
    2763975236; 1272893353; 4139469664; 3200236656; 681279174; 3936430074;
    3572445317; 76029189; 3654602809; 3873151461; 530742520; 3299628645;
    4096336452; 1126891415; 2878612391; 4237533241; 1700485571; 2399980690;
    4293915773; 2240044497; 1873313359; 4264355552; 2734768916; 1309151649;
    4149444226; 3174756917; 718787259; 3951481745 ].

Definition md5_pad (msg : list Z) : list Z :=
  msg ++ [128] ++ replicate (pad_zeros (length msg)) 0
      ++ le_bytes 8 (8 * Z.of_nat (length msg)).

Record md5_state := Md5State { ma : Z; mb : Z; mc : Z; md : Z }.

Definition md5_round (m : list Z) (st : md5_state) (i : nat) : md5_state :=
  let '(Md5State a b c d) := st in
  let iz := Z.of_nat i in
  let '(f, g) :=
    if iz <? 16 then (Z.lor (Z.land b c) (Z.land (not32 b) d), iz)
    else if iz <? 32 then
      (Z.lor (Z.land d b) (Z.land (not32 d) c), (5 * iz + 1) mod 16)
    else if iz <? 48 then (Z.lxor (Z.lxor b c) d, (3 * iz + 5) mod 16)
    else (Z.lxor c (Z.lor b (not32 d)), (7 * iz) mod 16) in
  let f' := add32 (add32 f a) (add32 (nth i md5_K 0) (nth (Z.to_nat g) m 0)) in
  Md5State d (add32 b (rotl32 (nth i md5_shifts 0) f')) b c.

Definition md5_block (st : md5_state) (block : list Z) : md5_state :=
  let m := le_word <$> chunk 4 block in
  let st' := foldl (md5_round m) st (seq 0 64) in
  Md5State (add32 (ma st) (ma st')) (add32 (mb st) (mb st'))
           (add32 (mc st) (mc st')) (add32 (md st) (md st')).

Definition md5_init : md5_state :=
  Md5State 1732584193 4023233417 2562383102 271733878.

Definition md5_digest (msg : list Z) : list Z :=
  let st := foldl md5_block md5_init (chunk 64 (md5_pad msg)) in
  [ma st; mb st; mc st; md st] ≫= le_bytes 4.

(** [hashlib.md5(msg).hexdigest()] *)
Definition md5_hex (msg : list Z) : string := hexlify (md5_digest msg).

End Hashlib.

(** ** [base64] *)

Module Base64.

(** Value of a character of the standard alphabet. *)
Definition sextet (c : ascii) : option Z :=
  let n := Z.of_N (PyStr.code c) in
  if (65 <=? n) && (n <=? 90) then Some (n - 65)
  else if (97 <=? n) && (n <=? 122) then Some (n - 71)
  else if (48 <=? n) && (n <=? 57) then Some (n + 4)
  else if n =? 43 then Some 62
  else if n =? 47 then Some 63
  else None.

Definition alphabet_char (v : Z) : ascii :=
  ascii_of_N (Z.to_N
    (if v <? 26 then v + 65
     else if v <? 52 then v + 71
     else if v <? 62 then v - 4
     else if v =? 62 then 43 else 47)).

(** The decoding loop of [binascii.a2b_base64] in its default, lenient
    mode: characters outside the alphabet are skipped, a pad that
    completes a quad ends the input, and an incomplete quad at the end
    of the input is an error.  [quad] is the position in the current
    quad, [left] the bits carried over, [pads] the pads seen in a row,
    [out] the bytes produced so far, newest first. *)
Fixpoint a2b_go (quad left pads : Z) (out : list Z) (s : string)
  : option (list Z) :=
  match s with
  | EmptyString => if quad =? 0 then Some (reverse out) else None
  | String c s' =>
      if Ascii.eqb c "="%char then
        if (2 <=? quad) && (4 <=? quad + (pads + 1)) then Some (reverse out)
        else a2b_go quad left (if 2 <=? quad then pads + 1 else pads) out s'
      else
        match sextet c with
        | None => a2b_go quad left pads out s'
        | Some v =>
            if quad =? 0 then a2b_go 1 v 0 out s'
            else if quad =? 1 then
              a2b_go 2 (Z.land v 15) 0
                     (Z.lor (Z.shiftl left 2) (Z.shiftr v 4) :: out) s'
            else if quad =? 2 then
              a2b_go 3 (Z.land v 3) 0
                     (Z.lor (Z.shiftl left 4) (Z.shiftr v 2) :: out) s'
            else
              a2b_go 0 0 0 (Z.lor (Z.shiftl left 6) v :: out) s'
        end
  end.

(** [base64.b64decode(s)] on a [str]: the string is first encoded as
    ASCII, which fails on any other character. *)
Definition b64decode (s : string) : option (list Z) :=
  if PyStr.all_chars (fun c => (PyStr.code c <? 128)%N) s
  then a2b_go 0 0 0 [] s
  else None.

(** [base64.b64encode(b).decode()] *)
Fixpoint b64encode (b : list Z) : string :=
  match b with
  | [] => ""
  | [x] =>
      String (alphabet_char (Z.shiftr x 2))
        (String (alphabet_char (Z.shiftl (Z.land x 3) 4)) "==")
  | [x; y] =>
      String (alphabet_char (Z.shiftr x 2))
        (String (alphabet_char (Z.lor (Z.shiftl (Z.land x 3) 4) (Z.shiftr y 4)))
           (String (alphabet_char (Z.shiftl (Z.land y 15) 2)) "="))
  | x :: y :: z :: b' =>
      String (alphabet_char (Z.shiftr x 2))
        (String (alphabet_char (Z.lor (Z.shiftl (Z.land x 3) 4) (Z.shiftr y 4)))
           (String (alphabet_char (Z.lor (Z.shiftl (Z.land y 15) 2) (Z.shiftr z 6)))
              (String (alphabet_char (Z.land z 63)) (b64encode b'))))
  end.

End Base64.

(** ** File metadata and [_extract_etag_like] *)

(** Values found in the dictionary returned by [fs.info]: [None], an
    integer or a string. *)
Inductive metaval :=
  | MNone
  | MInt (z : Z)
  | MStr (s : string).

Abbreviation info_dict := (list (string * metaval)).

(** [info.get(key)] *)
Fixpoint info_get (info : info_dict) (key : string) : metaval :=
  match info with
  | [] => MNone
  | (k, v) :: info' => if String.eqb k key then v else info_get info' key
  end.

Definition info_has (info : info_dict) (key : string) : bool :=
  existsb (fun kv => String.eqb kv.1 key) info.

(** Truth value of a metadata value. *)
Definition truthy (v : metaval) : bool :=
  match v with
  | MNone => false
  | MInt z => negb (z =? 0)
  | MStr s => negb (String.eqb s "")
  end.

(** [str(v)] *)
Definition meta_str (v : metaval) : string :=
  match v with
  | MNone => "None"
  | MInt z => PyStr.of_Z z
  | MStr s => s
  end.

(** [a or b] *)
Definition py_or (a b : metaval) : metaval := if truthy a then a else b.

Definition is_hex_char (c : ascii) : bool :=
  let n := PyStr.code c in
  ((48 <=? n) && (n <=? 57) || (97 <=? n) && (n <=? 102)
   || (65 <=? n) && (n <=? 70))%N.

Definition _is_hex32 (s : string) : bool :=
  (String.length s =? 32)%nat && PyStr.all_chars is_hex_char s.

(** [int(s)] on a string: surrounding whitespace, an optional sign, then
    digits, with single underscores allowed between digits. *)
Fixpoint int_body_ok (prev_digit : bool) (s : string) : bool :=
  match s with
  | EmptyString => prev_digit
  | String c s' =>
      if PyStr.is_digit c then int_body_ok true s'
      else if Ascii.eqb c "_"%char then prev_digit && int_body_ok false s'
      else false
  end.

Fixpoint int_body_val (acc : Z) (s : string) : Z :=
  match s with
  | EmptyString => acc
  | String c s' =>
      if PyStr.is_digit c then int_body_val (10 * acc + PyStr.digit_val c) s'
      else int_body_val acc s'
  end.

Definition py_int_of_str (s : string) : option Z :=
  let t := PyStr.strip s in
  let '(neg, body) :=
    match t with
    | String "-"%char b => (true, b)
    | String "+"%char b => (false, b)
    | _ => (false, t)
    end in
  if int_body_ok false body
  then Some (if neg : bool then - int_body_val 0 body else int_body_val 0 body)
  else None.

(** [int(v)]; [None] stands for the exception. *)
Definition meta_int (v : metaval) : option Z :=
  match v with
  | MNone => None
  | MInt z => Some z
  | MStr s => py_int_of_str s
  end.

Definition etag_keys : list string :=
  ["ETag"; "etag"; "etag_md5"; "md5"; "md5Hash"; "hash"; "Hash"].

(** The body of the loop over [etag_keys] for one key: [Some token] when
    the loop returns at this key, [None] when it goes on to the next. *)
Definition etag_of_key (info : info_dict) (key : string) : option string :=
  let v := info_get info key in
  if negb (truthy v) then None else
  let v := meta_str v in
  if _is_hex32 v then Some (PyStr.lower v) else
  match Base64.b64decode v with
  | Some b =>
      if (length b =? 16)%nat then Some (Hashlib.md5_hex b) else None
  | None => None
  end.

Fixpoint etag_loop (info : info_dict) (keys : list string) : option string :=
  match keys with
  | [] => None
  | key :: keys' =>
      match etag_of_key info key with
      | Some tok => Some tok
      | None => etag_loop info keys'
      end
  end.

Definition _extract_etag_like (info : info_dict) : option string :=
  match etag_loop info etag_keys with
  | Some tok => Some tok
  | None =>
      let size :=
        py_or (py_or (info_get info "size") (info_get info "Size"))
              (info_get info "length") in
      match size with
      | MNone => None
      | _ =>
          match meta_int size with
          | Some n => Some ("size:" ++ PyStr.of_Z n)
          | None => Some ("size:" ++ meta_str size)
          end
      end
  end.

(** ** Paths *)

(** [os.path.dirname] (POSIX). *)
Definition dirname (p : string) : string :=
  let head := String.rev (PyStr.drop
    (String.length (hd "" (PyStr.split "/"%char (String.rev p)))) (String.rev p)) in
  if PyStr.all_chars (Ascii.eqb "/"%char) head then head
  else PyStr.rstrip_char "/"%char head.

(** The text after the first ["://"] of [u], when there is one. *)
Fixpoint after_scheme (u : string) : option string :=
  match u with
  | EmptyString => None
  | String _ u' =>
      if PyStr.startswith "://" u then Some (PyStr.drop 3 u)
      else after_scheme u'
  end.

(** The path part of a URI, as [fsspec] strips the protocol. *)
Definition url_to_path (u : string) : string := default u (after_scheme u).

(** [p] is [root] itself or lies below it. *)
Definition under (root p : string) : bool :=
  String.eqb p root || PyStr.startswith (root ++ "/") p.

(** ** Storage backend

    One store of objects keyed by path.  A backend fixes the capabilities
    of the file system object, which calls raise, the metadata the
    provider reports for an object, and the order in which listings come
    back.  The calls below take paths, the keys of the store; where the
    source hands a URI to a method of the file system, which strips the
    protocol itself, the embedding writes [url_to_path].  A call that
    raises leaves the store as it was. *)

Inductive node :=
  | File (content : string)
  | Dir.

Inductive fsop :=
  | OpFind | OpLs | OpExists | OpInfo | OpOpen | OpWrite
  | OpMakedirs | OpRename | OpCopy | OpRm.

Record backend := Backend {
  has_makedirs : bool;
  has_rename : bool;
  fails : fsop → string → bool;
  provider_info : string → node → info_dict;
  arrange : list string → list string;
  lists_placeholders : bool
}.

Abbreviation store := (gmap string node).

Record ls_entry := LsEntry { e_name : string; e_type : string }.

Section Backend.

Variable be : backend.

Definition guard {A} (op : fsop) (p : string) (k : result A) : result A :=
  if fails be op p then Raise (BackendError
    match op with
    | OpFind => "find" | OpLs => "ls" | OpExists => "exists"
    | OpInfo => "info" | OpOpen => "open" | OpWrite => "write"
    | OpMakedirs => "makedirs" | OpRename => "rename"
    | OpCopy => "copy" | OpRm => "rm"
    end p)
  else k.

(** What a recursive listing shows for one object. *)
Definition find_item (root : string) (kv : string * node) : list string :=
  match kv.2 with
  | File _ => if under root kv.1 then [kv.1] else []
  | Dir =>
      if lists_placeholders be && PyStr.startswith (root ++ "/") kv.1
      then [kv.1 ++ "/"] else []
  end.

(** [fs.find(root)] *)
Definition fs_find (st : store) (root : string) : result (list string) :=
  guard OpFind root (Ok (arrange be (map_to_list st ≫= find_item root))).

(** [fs.ls(root, detail=True)] *)
Definition fs_ls (st : store) (root : string) : result (list ls_entry) :=
  guard OpLs root
    (let names := arrange be
       (filter (fun p => dirname p = root ∧ p ≠ root) (map_to_list st).*1) in
     Ok ((fun p => LsEntry p match st !! p with
                             | Some Dir => "directory" | _ => "file" end)
         <$> names)).

(** [fs.exists(p)] *)
Definition fs_exists (st : store) (p : string) : result bool :=
  guard OpExists p (Ok (existsb (under p) (map_to_list st).*1)).

(** [fs.info(p)] *)
Definition fs_info (st : store) (p : string) : result info_dict :=
  guard OpInfo p
    match st !! p with
    | Some n => Ok (provider_info be p n)
    | None => Raise (BackendError "info" p)
    end.

(** [fs.open(p, "rb")] followed by reading to the end of the file. *)
Definition fs_read (st : store) (p : string) : result string :=
  guard OpOpen p
    match st !! p with
    | Some (File c) => Ok c
    | _ => Raise (BackendError "open" p)
    end.

(** [fs.open(p, "wb")], one [write] and the close. *)
Definition fs_write (st : store) (p data : string) : result store :=
  guard OpWrite p (Ok (<[p := File data]> st)).

(** [fs.makedirs(p, exist_ok=True)] *)
Definition fs_makedirs (st : store) (p : string) : result store :=
  guard OpMakedirs p
    match st !! p with
    | Some (File _) => Raise (BackendError "makedirs" p)
    | Some Dir => Ok st
    | None => Ok (<[p := Dir]> st)
    end.

(** [fs.rename(src, dst)] *)
Definition fs_rename (st : store) (src dst : string) : result store :=
  guard OpRename src
    match st !! src with
    | Some n => Ok (<[dst := n]> (delete src st))
    | None => Raise (BackendError "rename" src)
    end.

(** [fs.copy(src, dst)] *)
Definition fs_copy (st : store) (src dst : string) : result store :=
  guard OpCopy src
    match st !! src with
    | Some n => Ok (<[dst := n]> st)
    | None => Raise (BackendError "copy" src)
    end.

(** [fs.rm(p)] *)
Definition fs_rm (st : store) (p : string) : result store :=
  guard OpRm p
    match st !! p with
    | Some _ => Ok (delete p st)
    | None => Raise (BackendError "rm" p)
    end.

End Backend.

(** ** [_retry]

    The store does not change while a function is retried, so every
    attempt sees the same outcome; the sleeps between attempts are not
    modelled. *)

Fixpoint _retry_go {A} (fn : unit → result A) (attempts : nat)
    (last : option exn) : result A :=
  match attempts with
  | O =>
      match last with
      | Some e => Raise e
      | None => Raise (TypeError "exceptions must derive from BaseException")
      end
  | S n =>
      match fn () with
      | Ok a => Ok a
      | Raise e => _retry_go fn n (Some e)
      end
  end.

Definition _retry {A} (fn : unit → result A) (attempts : nat) : result A :=
  _retry_go fn attempts None.

Definition exn_str (e : exn) : string :=
  match e with
  | RuntimeError m => m
  | BackendError op p => op ++ " failed: " ++ p
  | TypeError m => m
  | AttributeError n => "object has no attribute " ++ n
  end.

(** ** The world a pipeline invocation runs in *)

Inductive level := INFO | WARNING | ERROR.

Record world := World {
  w_store : store;
  w_environ : gmap string string;
  w_log : list (level * string)
}.

(** Stateful, fallible code: the world after the call is returned also
    when the call raises. *)
Definition M (A : Type) : Type := world → result A * world.

#[global] Instance M_ret : MRet M := fun A a w => (Ok a, w).

#[global] Instance M_bind : MBind M := fun A B k m w =>
  match m w with
  | (Ok a, w') => k a w'
  | (Raise e, w') => (Raise e, w')
  end.

Definition raise {A} (e : exn) : M A := fun w => (Raise e, w).

(** [try: body except Exception as e: handler(e)] *)
Definition try_except {A} (body : M A) (handler : exn → M A) : M A :=
  fun w =>
    match body w with
    | (Ok a, w') => (Ok a, w')
    | (Raise e, w') => handler e w'
    end.

Definition log_msg (l : level) (msg : string) : M unit :=
  fun w => (Ok (), World (w_store w) (w_environ w) (w_log w ++ [(l, msg)])).

(** A backend call that reads the store. *)
Definition query {A} (f : store → result A) : M A :=
  fun w => (f (w_store w), w).

(** A backend call that changes the store. *)
Definition update (f : store → result store) : M unit :=
  fun w =>
    match f (w_store w) with
    | Ok st' => (Ok (), World st' (w_environ w) (w_log w))
    | Raise e => (Raise e, w)
    end.

Definition get_environ : M (gmap string string) :=
  fun w => (Ok (w_environ w), w).

(** [os.environ[k] = v] *)
Definition set_environ (k v : string) : M unit :=
  fun w => (Ok (), World (w_store w) (<[k := v]> (w_environ w)) (w_log w)).

(** ** Sorting and deduplication of string lists *)

(** [sorted(l)] on strings: code-point order, which on UTF-8 bytes is the
    byte-wise lexicographic order. *)
Definition sorted (l : list string) : list string := merge_sort String.le l.

(** [list(dict.fromkeys(l))]: first occurrences, in order. *)
Fixpoint dict_fromkeys_go (seen : list string) (l : list string) : list string :=
  match l with
  | [] => []
  | x :: l' =>
      if bool_decide (x ∈ seen) then dict_fromkeys_go seen l'
      else x :: dict_fromkeys_go (x :: seen) l'
  end.

Definition dict_fromkeys (l : list string) : list string := dict_fromkeys_go [] l.

(** Order of the members of an object under [sort_keys=True]. *)
Definition key_le (a b : string * string) : Prop := String.le a.1 b.1.

#[global] Instance key_le_dec : RelDecision key_le.
Proof. intros a b. unfold key_le. apply _. Defined.

(** ** Matching of the two numeric patterns of [_norm_scalar] *)

(** [re.fullmatch(r"^-?\d+$", s)] *)
Definition match_int (s : string) : bool :=
  let body := match s with String "-"%char s' => s' | _ => s end in
  negb (String.eqb body "") && PyStr.all_chars PyStr.is_digit body.

(** [int(s)] on a string accepted by [match_int]. *)
Definition parse_int (s : string) : Z :=
  match s with
  | String "-"%char s' => - PyStr.digits_to_Z 0 s'
  | _ => PyStr.digits_to_Z 0 s
  end.

(** [re.fullmatch(r"^-?\d+\.\d+$", s)] *)
Definition match_decimal (s : string) : bool :=
  let body := match s with String "-"%char s' => s' | _ => s end in
  match PyStr.split "."%char body with
  | [a; b] =>
      negb (String.eqb a "") && PyStr.all_chars PyStr.is_digit a &&
      negb (String.eqb b "") && PyStr.all_chars PyStr.is_digit b
  | _ => false
  end.

(** ** Configuration field lists *)

Definition IDENTITY_VARS : list string :=
  [ "DATA_ROOT"; "TARGET_DATAFRAME"; "TARGET_COLUMN"; "TIME_COLUMN";
    "GROUP_COLUMN"; "SAMPLE_ROWS"; "TASK_TYPE"; "TASK_SUBTYPE";
    "TEST_SIZE"; "RANDOM_SEED"; "FORECAST_HORIZON"; "ENABLE_TIME_SPLIT";
    "ENABLE_RAY_TRANSFORMS"; "ENABLE_FEATURETOOLS"; "FT_TARGET_ENTITY";
    "FT_MAX_DEPTH"; "FT_MAX_FEATURES"; "FT_USE_TIME_INDEX"; "MAX_FEATURES";
    "CORRELATION_THRESHOLD"; "MAX_MISSING_RATIO"; "ENABLE_LAG_FEATURES";
    "LAG_PERIODS"; "ENABLE_ROLLING_FEATURES"; "ROLLING_WINDOWS";
    "AUTOML_TIME_BUDGET"; "MODEL_LIST"; "HANDLE_IMBALANCE";
    "IMBALANCE_STRATEGY"; "PRIMARY_METRIC"; "RETRAIN_FROM_MODEL_URI";
    "MODEL_FORMAT"; "SPLIT_STRATEGY"; "TRAIN_SIZE"; "CV_FOLDS";
    "STRATIFY_BY"; "GROUP_SPLIT_COLUMN"; "CANONICALIZATION_VERSION";
    "STRICT_DATA_FINGERPRINT" ].

Definition PLATFORM_VARS : list string :=
  [ "PIPELINE_ROOT_URI"; "RAY_ADDRESS"; "RAY_NUM_CPUS"; "RAY_NUM_GPUS";
    "FE_PARALLELISM"; "FE_BATCH_SIZE"; "RAY_USE_STREAMING";
    "RAY_OBJECT_STORE_MEMORY"; "FE_CPU_REQUEST"; "FE_MEMORY_REQUEST";
    "TRAIN_CPU_REQUEST"; "TRAIN_MEMORY_REQUEST"; "TRAIN_GPU";
    "CACHE_ENABLED"; "CACHE_VERSION"; "FORCE_RERUN"; "MAX_ROWS_FULL_LOAD";
    "MAX_FEATURE_CAP_PLATFORM"; "MAX_AUTOML_TIME_BUDGET"; "ENABLE_MLFLOW";
    "MLFLOW_TRACKING_URI"; "MLFLOW_EXPERIMENT_PREFIX"; "MLFLOW_MODEL_NAME";
    "TRAINING_STAGE_TIMEOUT_SECONDS"; "TRAINING_PIPELINE_MAX_SECONDS";
    "PIPELINE_MODE"; "EXISTING_MODEL_PATH"; "DISTRIBUTED_TRAINING";
    "TRAINING_FRAMEWORK"; "LOG_LEVEL"; "REDACTED_ENV_KEYS";
    "ARTIFACT_RETENTION_DAYS"; "TENANT_ID"; "PROJECT_ID" ].

(** The declared fields of [PlatformConfig], in order. *)
Definition PlatformConfig_fields : list string :=
  [ "DATA_ROOT"; "PIPELINE_ROOT_URI"; "TASK_TYPE"; "TASK_SUBTYPE";
    "TARGET_COLUMN"; "TARGET_DATAFRAME"; "ENABLE_TIME_SPLIT";
    "TIME_COLUMN"; "GROUP_COLUMN"; "FORECAST_HORIZON"; "SAMPLE_ROWS";
    "STRICT_DATA_FINGERPRINT"; "CANONICALIZATION_VERSION"; "RANDOM_SEED";
    "TASK_SUBTYPE_HINT"; "ENABLE_RAY_TRANSFORMS"; "RAY_ADDRESS";
    "RAY_NUM_CPUS"; "RAY_NUM_GPUS"; "FE_PARALLELISM"; "FE_BATCH_SIZE";
    "RAY_USE_STREAMING"; "RAY_OBJECT_STORE_MEMORY"; "ENABLE_FEATURETOOLS";
    "FT_TARGET_ENTITY"; "FT_MAX_DEPTH"; "FT_MAX_FEATURES";
    "FT_USE_TIME_INDEX"; "MAX_FEATURES"; "CORRELATION_THRESHOLD";
    "MAX_MISSING_RATIO"; "ENABLE_LAG_FEATURES"; "LAG_PERIODS";
    "ENABLE_ROLLING_FEATURES"; "ROLLING_WINDOWS"; "SPLIT_STRATEGY";
    "TRAIN_SIZE"; "CV_FOLDS"; "STRATIFY_BY"; "GROUP_SPLIT_COLUMN";
    "AUTOML_TIME_BUDGET"; "N_CONCURRENT_TRIALS"; "MODEL_LIST";
    "HANDLE_IMBALANCE"; "IMBALANCE_STRATEGY"; "MAX_CLASS_IMBALANCE_RATIO";
    "MODEL_BACKEND"; "DISTRIBUTED_TRAINING"; "TRAINING_FRAMEWORK";
    "MODEL_FORMAT"; "PRIMARY_METRIC"; "PIPELINE_MODE";
    "EXISTING_MODEL_PATH"; "FE_CPU_REQUEST"; "FE_MEMORY_REQUEST";
    "TRAIN_CPU_REQUEST"; "TRAIN_MEMORY_REQUEST"; "TRAIN_GPU";
    "CACHE_ENABLED"; "CACHE_VERSION"; "FORCE_RERUN"; "MAX_ROWS_FULL_LOAD";
    "MAX_FEATURE_CAP_PLATFORM"; "MAX_AUTOML_TIME_BUDGET"; "ENABLE_MLFLOW";
    "MLFLOW_TRACKING_URI"; "MLFLOW_EXPERIMENT_PREFIX"; "MLFLOW_MODEL_NAME";
    "TRAINING_STAGE_TIMEOUT_SECONDS"; "TRAINING_PIPELINE_MAX_SECONDS";
    "GLOBAL_RANDOM_SEED"; "DETERMINISTIC_TRAINING";
    "MIN_ACCEPTABLE_METRIC"; "EARLY_STOPPING_ENABLED";
    "EARLY_STOPPING_ROUNDS"; "SAVE_OOF_PREDICTIONS";
    "ENABLE_FEATURE_IMPORTANCE"; "ENABLE_SHAP_VALUES"; "MAX_SHAP_SAMPLES";
    "EXPORT_BASELINE_STATISTICS"; "DRIFT_REFERENCE_WINDOW";
    "EXPORT_PIPELINE_METRICS"; "TENANT_ID"; "PROJECT_ID"; "PII_COLUMNS";
    "HASH_PII_COLUMNS"; "LOG_SAMPLE_ROWS"; "ARTIFACT_RETENTION_DAYS";
    "REDACTED_ENV_KEYS"; "LOG_LEVEL" ].

(** What [bootstrap_and_hash] returns. *)
Record boot := Boot {
  boot_canonical_config : pyval;
  boot_canonical_json : string;
  boot_data_fingerprint : string;
  boot_full_config_hash : string;
  boot_run_id : string;
  boot_artifact_root : string
}.

(** ** Sample worlds

    Concrete backends, stores and configurations on which the definitions
    are run. *)

Module Samples.

(** The samples hold no decimal text and no float, so the two conversions
    are never reached. *)
Definition no_float (s : string) : float := PrimFloat.zero.
Definition float_text (f : float) : string := "0.0".
Definition no_repr (v : pyval) : string := "".

(** [os.path.abspath] on paths that are absolute and normalized. *)
Definition same_path (p : string) : string := p.

(** The metadata of the local file system: name, size and type. *)
Definition local_info (p : string) (n : node) : info_dict :=
  match n with
  | File c =>
      [("name", MStr p); ("size", MInt (Z.of_nat (String.length c)));
       ("type", MStr "file")]
  | Dir => [("name", MStr p); ("size", MInt 0); ("type", MStr "directory")]
  end.

(** A backend like the local file system, every call of which succeeds. *)
Definition local_be : backend :=
  Backend true true (fun _ _ => false) local_info (fun l => l) false.


(** A backend without [rename], on which removing an object fails. *)
Definition no_rename_be : backend :=
  Backend true false (fun op _ => match op with OpRm => true | _ => false end)
          local_info (fun l => l) false.

Definition data_store : store :=
  <["/data/a.csv" := File "a"]>
    (<["/data/sub/b.csv" := File "1,2"]>
       (<["/data/sub" := Dir]> (<["/data" := Dir]> ∅))).

Definition run_root : string := "file:///runs/ml8s_training_runs/0123456789ab".



Definition base_cfg : gmap string pyval :=
  <["DATA_ROOT" := VStr "file:///data"]>
    (<["TARGET_COLUMN" := VStr "label"]>
       (<["LAG_PERIODS" := VList [VInt 3; VInt 1; VInt 2; VInt 3]]>
          (<["STRICT_DATA_FINGERPRINT" := VBool true]>
             (<["LOG_LEVEL" := VStr "INFO"]> ∅)))).


Definition marker_world : world :=
  World (<["/runs/ml8s_training_runs/0123456789ab/success.marker" := File ""]>
           (<["/runs/ml8s_training_runs/0123456789ab/config_snapshot.json"
              := File "snapshot"]> ∅)) ∅ [].







(** A configuration with the attributes that [load_from_env] and
    [bootstrap_and_hash] read, and a validation that returns it. *)
Definition full_cfg : gmap string pyval :=
  <["PIPELINE_ROOT_URI" := VStr "file:///runs"]>
    (<["TASK_TYPE" := VStr "classification"]>
       (<["PIPELINE_MODE" := VStr "full"]>
          (<["GLOBAL_RANDOM_SEED" := VInt 42]> base_cfg))).

Definition full_parse (fields : list (string * pyval))
  : result (gmap string pyval) := Ok full_cfg.

(** A configuration with every declared field, each [None]. *)
Definition declared_cfg : gmap string pyval :=
  list_to_map ((fun k => (k, VNone)) <$> PlatformConfig_fields).

(** A parser that gives the empty object for every text. *)
Definition loads_empty (text : string) : result pyval := Ok (VDict []).

(** The indented JSON of the list [[1, 2]], and a parser that knows it. *)
Definition list_text : string :=
  "[" ++ PyStr.newline ++ "  1," ++ PyStr.newline ++ "  2" ++ PyStr.newline
  ++ "]".

Definition loads_list (text : string) : result pyval :=
  if String.eqb text list_text then Ok (VList [VInt 1; VInt 2])
  else Raise (RuntimeError "not JSON").

(** A backend like the local file system on which [fs.info] fails. *)
Definition no_info_be : backend :=
  Backend true true (fun op _ => match op with OpInfo => true | _ => false end)
          (fun _ _ => []) (fun l => l) false.


(** Metadata as an object store reports it. *)
Definition etag_info : info_dict :=
  [("name", MStr "bucket/a.csv");
   ("ETag", MStr "D41D8CD98F00B204E9800998ECF8427E");
   ("size", MInt 0)].

Definition two_environs : gmap string string * gmap string string :=
  (<["HOME" := "/root"]> (<["DATA_ROOT" := "s3://bucket/data"]> ∅),
   <["PATH" := "/bin"]> (<["DATA_ROOT" := "s3://bucket/data"]> ∅)).

End Samples.

Section Runtime.

(** [float(s)] on a string accepted by [match_decimal], and the text
    [json.dumps] and [str] give a float. *)
Variable float_of_str : string → float.
Variable float_repr : float → string.

(** [os.path.abspath], which depends on the working directory. *)
Variable abspath : string → string.

(** ** [_norm_scalar] *)

Definition bool_tokens : list string := ["true"; "false"; "1"; "0"; "yes"; "no"].
Definition true_tokens : list string := ["true"; "1"; "yes"].

Definition _norm_scalar (v : option string) : pyval :=
  match v with
  | None => VNone
  | Some v =>
      let s := PyStr.strip v in
      if String.eqb s "" then VNone else
      let sl := PyStr.lower s in
      if bool_decide (sl ∈ bool_tokens) then VBool (bool_decide (sl ∈ true_tokens)) else
      if match_int s then VInt (parse_int s) else
      if match_decimal s then VFloat (float_of_str s) else
      if PyStr.contains_char ","%char s then
        let items :=
          filter (fun i => i ≠ "") (PyStr.strip <$> PyStr.split ","%char s) in
        VList (VStr <$> sorted (dict_fromkeys items))
      else VStr s
  end.

(** ** [_to_abs_file_uri] *)

Definition _to_abs_file_uri (uri : string) : string :=
  if String.eqb uri "" then uri
  else if PyStr.startswith "file://" uri
  then "file://" ++ abspath (PyStr.drop 7 uri)
  else if PyStr.startswith "/" uri then "file://" ++ abspath uri
  else uri.

(** ** [compute_data_fingerprint] *)

Section Fingerprint.

Variable be : backend.
Variable st : store.

(** The whole file goes through the hash; reading it in chunks of
    [chunk_size] feeds the same bytes to [h.update]. *)
Definition _stream_sha256_of_path (p : string) : result string :=
  content ← fs_read be st p;
  Ok (Hashlib.sha256_hex (PyStr.bytes content)).

Definition keep_files (l : list string) : list string :=
  filter (fun p => PyStr.endswith "/" p = false) l.

(** The loop over the entries of [fs.ls] in the first fallback. *)
Definition ls_files (entries : list ls_entry) : list string :=
  entries ≫= fun e =>
    if String.eqb (e_type e) "directory" then
      match fs_find be st (e_name e) with
      | Ok deeper => deeper
      | Raise _ => []
      end
    else [e_name e].

Definition _list_files (root : string) : result (list string) :=
  match fs_find be st root with
  | Ok found => Ok (sorted (keep_files found))
  | Raise _ =>
      match fs_ls be st root with
      | Ok entries => Ok (sorted (keep_files (ls_files entries)))
      | Raise _ =>
          present ← fs_exists be st root;
          Ok (if present : bool then [root] else [])
      end
  end.

(** The token [_token_for_path] takes from the metadata of [p]: the value
    of [token] before the test [if token is None]. *)
Definition metadata_token (prefer_etag : bool) (p : string) : option string :=
  let info := match fs_info be st p with Ok i => i | Raise _ => [] end in
  if prefer_etag then
    match _extract_etag_like info with
    | Some et =>
        if negb (String.eqb et "") then
          if PyStr.startswith "size:" et then Some (p ++ ":" ++ et)
          else Some (p ++ ":" ++ et ++ ":" ++
                     (if info_has info "size"
                      then meta_str (info_get info "size") else ""))
        else None
    | None => None
    end
  else None.

Definition _token_for_path (prefer_etag : bool) (p : string)
  : result string :=
  match metadata_token prefer_etag p with
  | Some t => Ok t
  | None =>
      match _stream_sha256_of_path p with
      | Ok digest => Ok (p ++ ":sha256:" ++ digest)
      | Raise e =>
          Raise (RuntimeError
            ("Failed to tokenise file " ++ p ++ ": " ++ exn_str e))
      end
  end.

(** The string whose hash is the fingerprint: [concat] in the source. *)
Definition fingerprint_concat (data_root : string) (prefer_etag : bool)
    (attempts : nat) : result string :=
  if String.eqb data_root "" then
    Raise (RuntimeError "DATA_ROOT is required to compute data fingerprint")
  else
    let data_root := _to_abs_file_uri data_root in
    let root := PyStr.rstrip_char "/"%char (url_to_path data_root) in
    files ← _retry (fun _ => _list_files root) attempts;
    match files with
    | [] => Raise (RuntimeError
              ("No files discovered under DATA_ROOT=" ++ data_root))
    | _ =>
        tokens ← mapM (fun p =>
          _retry (fun _ => _token_for_path prefer_etag p) attempts) files;
        Ok (PyStr.join "|" tokens)
    end.

Definition compute_data_fingerprint (data_root : string)
    (prefer_etag : bool) (attempts : nat) : result string :=
  concat ← fingerprint_concat data_root prefer_etag attempts;
  Ok (Hashlib.sha256_hex (PyStr.bytes concat)).

End Fingerprint.

(** ** [json.dumps] *)

(** [py_repr] is [repr] on the containers; [str] of a scalar is spelled
    out in [py_str]. *)
Variable py_repr : pyval → string.

Definition py_str (v : pyval) : string :=
  match v with
  | VNone => "None"
  | VBool true => "True"
  | VBool false => "False"
  | VInt z => PyStr.of_Z z
  | VFloat f => float_repr f
  | VStr s => s
  | VList _ | VDict _ => py_repr v
  end.

Definition py_truthy (v : pyval) : bool :=
  match v with
  | VNone => false
  | VBool b => b
  | VInt z => negb (z =? 0)
  | VFloat f => negb (PrimFloat.eqb f PrimFloat.zero)
  | VStr s => negb (String.eqb s "")
  | VList l => match l with [] => false | _ => true end
  | VDict d => match d with [] => false | _ => true end
  end.

(** One character of a JSON string with [ensure_ascii=False]. *)
Definition json_escape_char (c : ascii) : string :=
  let n := Z.of_N (PyStr.code c) in
  if n =? 34 then "\" ++ PyStr.dquote
  else if n =? 92 then "\\"
  else if n =? 10 then "\n"
  else if n =? 13 then "\r"
  else if n =? 9 then "\t"
  else if n =? 8 then "\b"
  else if n =? 12 then "\f"
  else if n <? 32 then "\u00" ++ Hashlib.hex_byte n
  else String c EmptyString.

Fixpoint json_escape (s : string) : string :=
  match s with
  | EmptyString => EmptyString
  | String c s' => json_escape_char c ++ json_escape s'
  end.

Definition json_string (s : string) : string :=
  PyStr.dquote ++ json_escape s ++ PyStr.dquote.

(** [sort_keys=True]: the rendered members of an object, by key. *)
Definition sort_members (l : list (string * string)) : list (string * string) :=
  merge_sort key_le l.

(** [json.dumps(v, indent=indent, separators=(item_sep, key_sep),
    sort_keys=True, ensure_ascii=False)], at nesting depth [depth]. *)
Fixpoint json_dumps_at (indent : option nat) (item_sep key_sep : string)
    (depth : nat) (v : pyval) : string :=
  let break d :=
    match indent with
    | Some n => PyStr.newline ++ PyStr.spaces (n * d)
    | None => ""
    end in
  match v with
  | VNone => "null"
  | VBool true => "true"
  | VBool false => "false"
  | VInt z => PyStr.of_Z z
  | VFloat f => float_repr f
  | VStr s => json_string s
  | VList [] => "[]"
  | VList l =>
      "[" ++ break (S depth)
      ++ PyStr.join (item_sep ++ break (S depth))
           (List.map (json_dumps_at indent item_sep key_sep (S depth)) l)
      ++ break depth ++ "]"
  | VDict [] => "{}"
  | VDict d =>
      let members :=
        List.map (fun kv =>
          (fst kv, json_dumps_at indent item_sep key_sep (S depth) (snd kv))) d in
      "{" ++ break (S depth)
      ++ PyStr.join (item_sep ++ break (S depth))
           (List.map (fun kv => json_string (fst kv) ++ key_sep ++ snd kv)
              (sort_members members))
      ++ break depth ++ "}"
  end.

(** ** [canonical_json_str] *)

Definition canonical_json_str (obj : pyval) : string :=
  json_dumps_at None "," ":" 0 obj.

(** [json.dumps(obj, indent=2, sort_keys=True, ensure_ascii=False)] *)
Definition json_dumps_indent2 (obj : pyval) : string :=
  json_dumps_at (Some 2%nat) "," ": " 0 obj.

(** ** [compute_full_hash_and_run_id] *)

Definition strict_env_values : list string := ["1"; "true"; "True"].

Definition compute_full_hash_and_run_id (environ : gmap string string)
    (canonical_json : string) (data_fingerprint : option string)
    (include_data_fingerprint : option bool) : result (string * string) :=
  let include_data_fingerprint :=
    match include_data_fingerprint with
    | Some b => b
    | None =>
        match environ !! "STRICT_DATA_FINGERPRINT" with
        | Some v => bool_decide (v ∈ strict_env_values)
        | None => false
        end
    end in
  combined ←
    (if include_data_fingerprint then
       match data_fingerprint with
       | None | Some "" =>
           Raise (RuntimeError "Data fingerprint required but not provided")
       | Some fp => Ok (canonical_json ++ PyStr.newline ++ fp)
       end
     else Ok canonical_json);
  let full := Hashlib.sha256_hex (PyStr.bytes combined) in
  Ok (full, PyStr.take 12 full).

(** ** [derive_artifact_root] *)

Definition derive_artifact_root (pipeline_root_uri run_id : string)
  : result string :=
  if String.eqb pipeline_root_uri "" then
    Raise (RuntimeError "PIPELINE_ROOT_URI is required to derive artifact root")
  else
    Ok (PyStr.rstrip_char "/"%char pipeline_root_uri
        ++ "/ml8s_training_runs/" ++ run_id).

(** ** [_atomic_write_json] *)

Variable be : backend.

Definition _atomic_write_json (obj : pyval) (uri : string) : M string :=
  let path := url_to_path uri in
  let tmp := url_to_path (uri ++ ".tmp") in
  let data := json_dumps_indent2 obj in
  let parent := dirname path in
  _ ← try_except
        (if has_makedirs be
         then update (fun st => fs_makedirs be st parent) else mret ())
        (fun _ => mret ());
  _ ← update (fun st => fs_write be st tmp data);
  renamed ← try_except
        (if has_rename be
         then _ ← update (fun st => fs_rename be st tmp path); mret true
         else mret false)
        (fun _ => mret false);
  if renamed : bool then mret uri
  else
    _ ← try_except
          (_ ← update (fun st => fs_copy be st tmp path);
           update (fun st => fs_rm be st tmp))
          (fun _ => raise (RuntimeError ("Failed atomic write for " ++ uri)));
    mret uri.




(** ** [persist_config_snapshot] *)

(** [time.strftime("%Y-%m-%dT%H:%M:%SZ", time.gmtime())] at the call. *)
Variable timestamp_utc : string.

Definition environ_keys (environ : gmap string string) : list string :=
  (map_to_list environ).*1.

Definition redact_set (environ : gmap string string)
    (redact_keys : option (list string)) : list string :=
  match redact_keys with
  | Some keys => keys
  | None =>
      let raw := default "" (environ !! "REDACTED_ENV_KEYS") in
      filter (fun k => k ≠ "") (PyStr.strip <$> PyStr.split ","%char raw)
  end.

Definition env_snapshot (environ : gmap string string)
    (redact_keys : option (list string)) : list (string * pyval) :=
  (fun k =>
     (k, VStr (if bool_decide (k ∈ redact_set environ redact_keys)
               then "<REDACTED>" else default "" (environ !! k))))
  <$> sorted (environ_keys environ).

Definition snapshot_of (environ : gmap string string) (canonical_cfg : pyval)
    (full_hash run_id : string) (data_fingerprint : option string)
    (redact_keys : option (list string)) : pyval :=
  VDict [ ("canonical_config", canonical_cfg);
          ("full_config_hash", VStr full_hash);
          ("run_id", VStr run_id);
          ("data_fingerprint", from_option VStr VNone data_fingerprint);
          ("timestamp_utc", VStr timestamp_utc);
          ("env", VDict (env_snapshot environ redact_keys)) ].

Definition config_snapshot_uri (artifact_root : string) : string :=
  PyStr.rstrip_char "/"%char artifact_root ++ "/config_snapshot.json".

Definition persist_config_snapshot (artifact_root : string)
    (canonical_cfg : pyval) (full_hash run_id : string)
    (data_fingerprint : option string) (redact_keys : option (list string))
  : M string :=
  environ ← get_environ;
  let snapshot :=
    snapshot_of environ canonical_cfg full_hash run_id data_fingerprint
                redact_keys in
  let cfg_uri := config_snapshot_uri artifact_root in
  _ ← _atomic_write_json snapshot cfg_uri;
  _ ← log_msg INFO ("Persisted config snapshot to " ++ cfg_uri);
  mret cfg_uri.

(** ** [build_canonical_config] and [canonical_json_and_hash]

    A configuration object is the map from its attribute names to their
    values. *)

Definition getattr (cfg : gmap string pyval) (name : string) : result pyval :=
  match cfg !! name with
  | Some v => Ok v
  | None => Raise (AttributeError name)
  end.

(** The second loop of [build_canonical_config], for one value. *)
Definition canonical_value (v : pyval) : pyval :=
  match v with
  | VNone => VNone
  | VStr "" => VNone
  | VList l => VList (VStr <$> sorted (dict_fromkeys (py_str <$> l)))
  | VBool b => VBool b
  | _ => v
  end.

Definition build_canonical_config (cfg : gmap string pyval)
  : list (string * pyval) :=
  (fun kv => (kv.1, canonical_value kv.2))
  <$> omap (fun k => (fun v => (k, v)) <$> cfg !! k) IDENTITY_VARS.

(** How a value passed for [include_data_fingerprint] is read. *)
Definition include_flag (v : pyval) : option bool :=
  match v with
  | VNone => None
  | _ => Some (py_truthy v)
  end.

Definition canonical_json_and_hash (environ : gmap string string)
    (cfg : gmap string pyval) (data_fingerprint : option string)
  : result (string * string * string) :=
  let canonical_cfg := build_canonical_config cfg in
  let canonical_json := canonical_json_str (VDict canonical_cfg) in
  strict ← getattr cfg "STRICT_DATA_FINGERPRINT";
  hr ← compute_full_hash_and_run_id environ canonical_json data_fingerprint
         (include_flag strict);
  Ok (canonical_json, hr.1, hr.2).

(** ** [load_from_env] *)

(** [PlatformConfig.parse_obj]: the validation done by pydantic. *)
Variable parse_obj : list (string * pyval) → result (gmap string pyval).

Definition lift {A} (r : result A) : M A := fun w => (r, w).

Definition parsed_fields (env : gmap string string) : list (string * pyval) :=
  (fun field => (field, _norm_scalar (env !! field))) <$> PlatformConfig_fields.

Definition load_from_env (os_env : option (gmap string string))
  : M (gmap string pyval) :=
  environ ← get_environ;
  let env :=
    match os_env with
    | Some e => if bool_decide (e = ∅) then environ else e
    | None => environ
    end in
  cfg ← lift (parse_obj (parsed_fields env));
  task_type ← lift (getattr cfg "TASK_TYPE");
  mode ← lift (getattr cfg "PIPELINE_MODE");
  seed ← lift (getattr cfg "GLOBAL_RANDOM_SEED");
  _ ← log_msg INFO ("Loaded PlatformConfig task_type=" ++ py_str task_type
                    ++ " pipeline_mode=" ++ py_str mode
                    ++ " run_seed=" ++ py_str seed);
  mret cfg.

(** ** [bootstrap_and_hash] *)

(** [json.loads] *)
Variable json_loads : string → result pyval.

(** A string-typed attribute. *)
Definition getattr_str (cfg : gmap string pyval) (name : string)
  : result string :=
  v ← getattr cfg name;
  match v with
  | VStr s => Ok s
  | _ => Raise (TypeError (name ++ " is not a string"))
  end.

(** [if cfg.X and cfg.X.startswith("/"): cfg.X = "file://" + abspath(cfg.X)] *)
Definition absolutize (cfg : gmap string pyval) (name : string)
  : result (gmap string pyval) :=
  x ← getattr_str cfg name;
  Ok (if negb (String.eqb x "") && PyStr.startswith "/" x
      then <[name := VStr ("file://" ++ abspath x)]> cfg else cfg).

Definition bootstrap_and_hash : M boot :=
  cfg ← load_from_env None;
  cfg ← lift (absolutize cfg "DATA_ROOT");
  cfg ← lift (absolutize cfg "PIPELINE_ROOT_URI");
  data_root ← lift (getattr_str cfg "DATA_ROOT");
  data_fp ← query (fun st => compute_data_fingerprint be st data_root true 3);
  environ ← get_environ;
  jh ← lift (canonical_json_and_hash environ cfg (Some data_fp));
  let '(canonical_json, full_hash, run_id) := jh in
  pipeline_root ← lift (getattr_str cfg "PIPELINE_ROOT_URI");
  artifact_root ← lift (derive_artifact_root pipeline_root run_id);
  canonical_cfg ← lift (json_loads canonical_json);
  _ ← persist_config_snapshot artifact_root canonical_cfg full_hash run_id
        (Some data_fp) None;
  _ ← set_environ "FULL_CONFIG_HASH" full_hash;
  _ ← set_environ "RUN_ID" run_id;
  _ ← set_environ "ARTIFACT_ROOT" artifact_root;
  _ ← log_msg INFO ("bootstrap complete run_id=" ++ run_id
                    ++ " artifact_root=" ++ artifact_root);
  canonical_cfg' ← lift (json_loads canonical_json);
  mret (Boot canonical_cfg' canonical_json data_fp full_hash run_id
             artifact_root).

(** ** The idempotence gate *)

Definition success_marker_uri (artifact_root : string) : string :=
  PyStr.rstrip_char "/"%char artifact_root ++ "/success.marker".

(** [d.get(key)] on a dictionary value. *)
Fixpoint dict_get (d : list (string * pyval)) (key : string) : pyval :=
  match d with
  | [] => VNone
  | (k, v) :: d' => if String.eqb k key then v else dict_get d' key
  end.







Section Pipeline.

(** [from config import check_existing_run_and_validate]: the function the
    gate calls.  [config.py] does not define it, so the gate is stated over
    any function of its signature. *)
Variable check_existing_run_and_validate :
  string → string → string → M (bool * string).

Record gate_result := GateResult {
  early_exit : bool;
  reason : option string
}.

Definition idempotence_gate (artifact_root expected_full_hash
    expected_data_fingerprint : string) (force_rerun : bool) : M gate_result :=
  es ← check_existing_run_and_validate artifact_root expected_full_hash
         expected_data_fingerprint;
  let '(exists_, status) := es in
  if exists_ && negb force_rerun then
    _ ← log_msg INFO ("Existing valid run detected at " ++ artifact_root
                      ++ " (" ++ status ++ "). Early exit.");
    mret (GateResult true (Some status))
  else
    _ ← (if exists_ && force_rerun then
           try_except
             (let path := url_to_path (success_marker_uri artifact_root) in
              present ← query (fun st => fs_exists be st path);
              if present : bool then
                _ ← update (fun st => fs_rm be st path);
                log_msg INFO ("Removed existing success.marker at "
                              ++ artifact_root)
              else mret ())
             (fun e => log_msg WARNING
                         ("Could not remove success.marker: " ++ exn_str e))
         else mret ());
    mret (GateResult false None).

(** ** [run_pipeline_local] *)

(** The feature-engineering and training stages, external to the core:
    [run_preprocessing(cfg, artifact_root, run_id)] returns the features
    URI and its metadata, [run_train_and_eval] the model URI and its
    metadata. *)
Variable run_preprocessing :
  gmap string pyval → string → string → M (string * list (string * pyval)).
Variable run_train_and_eval :
  string → pyval → string → string → string → string → gmap string pyval →
  M (string * list (string * pyval)).


Definition force_rerun_tokens : list string := ["1"; "true"; "yes"].



(** [os.environ.get("FORCE_RERUN", "false").lower() in ("1", "true", "yes")] *)
Definition force_rerun_of (environ : gmap string string) : bool :=
  bool_decide (PyStr.lower (default "false" (environ !! "FORCE_RERUN"))
               ∈ force_rerun_tokens).


End Pipeline.

(** ** [_stream_sha256_of_path], read by read

    The loop of the function with its [chunk_size].  The hash object is
    the list of the bytes it was given so far, [h.update(a)] followed by
    [h.update(b)] being [h.update(a + b)]. *)

(** [fh.read(n)] with [rest] left to read: the chunk returned and what is
    left after it.  [fh.read(-1)] reads to the end of the file, and so
    does any negative [n] on the buffered files of fsspec. *)
Definition fh_read (n : Z) (rest : string) : string * string :=
  if n <? 0 then (rest, "")
  else (PyStr.take (Z.to_nat n) rest, PyStr.drop (Z.to_nat n) rest).

(** The [while True] loop, for at most [fuel] reads: [None] when the
    [break] was not reached. *)
Fixpoint read_loop (fuel : nat) (chunk_size : Z) (rest : string) (h : list Z)
  : option (list Z) :=
  match fuel with
  | O => None
  | S fuel' =>
      let '(chunk, rest') := fh_read chunk_size rest in
      if String.eqb chunk "" then Some h
      else read_loop fuel' chunk_size rest' (h ++ PyStr.bytes chunk)
  end.

Definition _stream_sha256_by_chunks (st : store) (p : string)
    (chunk_size : Z) (fuel : nat) : result (option string) :=
  content ← fs_read be st p;
  Ok (Hashlib.sha256_hex <$> read_loop fuel chunk_size content []).

(** ** [canonicalize_env] *)

(** The body of the loop, for one value of the map. *)
Definition canonicalize_env_value (v : pyval) : pyval :=
  match v with
  | VNone => VNone
  | VList l =>
      VList (VStr <$> sorted (dict_fromkeys
        (filter (fun i => i ≠ "") ((fun x => PyStr.strip (py_str x)) <$> l))))
  | VBool b => VBool b
  | _ => _norm_scalar (Some (py_str v))
  end.

(** A dictionary is the list of its items, in insertion order. *)
Definition canonicalize_env (env_map : list (string * pyval))
  : list (string * pyval) :=
  (fun kv => (kv.1, canonicalize_env_value kv.2)) <$> env_map.

(** ** Validators of [PlatformConfig] *)

(** [int(f)] on a float: truncation towards zero, an exception on an
    infinity or a NaN. *)
Definition py_int_of_float (f : float) : option Z :=
  match Prim2SF f with
  | S754_zero _ => Some 0
  | S754_finite s m e =>
      let mag := if 0 <=? e then Z.pos m * 2 ^ e else Z.pos m / 2 ^ (- e) in
      Some (if s then - mag else mag)
  | _ => None
  end.

(** [int(v)]; [None] stands for the exception. *)
Definition py_int (v : pyval) : option Z :=
  match v with
  | VBool b => Some (if b then 1 else 0)
  | VInt z => Some z
  | VFloat f => py_int_of_float f
  | VStr s => py_int_of_str s
  | VNone | VList _ | VDict _ => None
  end.

(** [x.isdigit()] *)
Definition isdigit (x : string) : bool :=
  negb (String.eqb x "") && PyStr.all_chars PyStr.is_digit x.

(** [x.isascii()]: on text outside ASCII, [strip], [isdigit] and [\d] of
    Python know more characters than the operations of [PyStr]. *)
Definition isascii (x : string) : bool :=
  PyStr.all_chars (fun c => (PyStr.code c <? 128)%N) x.

(** The length of text up to which [int] converts a run of digits in
    every version of Python ([sys.int_info.default_max_str_digits]). *)
Definition max_str_digits : nat := 4300.

(** The common body of [parse_lag_periods] and [parse_rolling_windows],
    which differ in the name they put in the message. *)
Definition parse_periods (field : string) (v : pyval)
  : checked (option (list Z)) :=
  match v with
  | VNone | VStr "" => Valid None
  | VList l =>
      match mapM py_int l with
      | Some zs => Valid (Some zs)
      | None => ConversionError
      end
  | VStr s =>
      match mapM py_int_of_str
              (filter (fun x => isdigit (PyStr.strip x) = true)
                      (PyStr.split ","%char s)) with
      | Some zs => Valid (Some zs)
      | None => ConversionError
      end
  | _ => ValueError (field ++ " must be comma-separated ints or list")
  end.

Definition parse_lag_periods : pyval → checked (option (list Z)) :=
  parse_periods "LAG_PERIODS".

Definition parse_rolling_windows : pyval → checked (option (list Z)) :=
  parse_periods "ROLLING_WINDOWS".





(** ** [flyte_adapter.py]: the bodies of the tasks *)

Record flyte_boot := FlyteBoot {
  fb_canonical_json : string;
  fb_full_config_hash : string;
  fb_run_id : string;
  fb_artifact_root : string;
  fb_data_fingerprint : string
}.

Definition flyte_bootstrap : M flyte_boot :=
  cfg ← load_from_env None;
  data_root ← lift (getattr_str cfg "DATA_ROOT");
  data_fp ← query (fun st => compute_data_fingerprint be st data_root true 3);
  environ ← get_environ;
  jh ← lift (canonical_json_and_hash environ cfg (Some data_fp));
  let '(canonical_json, full_hash, run_id) := jh in
  pipeline_root ← lift (getattr_str cfg "PIPELINE_ROOT_URI");
  artifact_root ← lift (derive_artifact_root pipeline_root run_id);
  canonical_cfg ← lift (json_loads canonical_json);
  _ ← persist_config_snapshot artifact_root canonical_cfg full_hash run_id
        (Some data_fp) None;
  mret (FlyteBoot canonical_json full_hash run_id artifact_root data_fp).

Section FlyteAdapter.

(** [from config import check_existing_run_and_validate], as in
    [pipeline.py]. *)
Variable check_existing_run_and_validate :
  string → string → string → M (bool * string).

Definition flyte_idempotence (artifact_root full_config_hash
    data_fingerprint : string) (force_rerun : bool) : M gate_result :=
  er ← check_existing_run_and_validate artifact_root full_config_hash
         data_fingerprint;
  let '(exists_, reason) := er in
  if exists_ && negb force_rerun then mret (GateResult true (Some reason))
  else
    _ ← (if exists_ && force_rerun then
           try_except
             (let path := url_to_path (success_marker_uri artifact_root) in
              present ← query (fun st => fs_exists be st path);
              if present : bool then update (fun st => fs_rm be st path)
              else mret ())
             (fun _ => log_msg WARNING
                "Could not remove success.marker during FORCE_RERUN; continuing")
         else mret ());
    mret (GateResult false None).

End FlyteAdapter.

(** ** [contracts.py]: the manifests *)

(** The three [save_json] methods, of [FeatureOutput], [ModelOutput] and
    [PipelineResult], differ in the texts they log: [failed] before the
    uri of a failed save, [saved] before the uri of a save that went
    through.  [obj] is the dictionary of the model, [self.dict()]. *)
Definition save_json_as (failed saved : string) (obj : pyval) (uri : string)
  : M string :=
  let path := url_to_path uri in
  let data := json_dumps_indent2 obj in
  let tmp := url_to_path (uri ++ ".tmp") in
  _ ← update (fun st => fs_write be st tmp data);
  _ ← try_except
        (if has_rename be then update (fun st => fs_rename be st tmp path)
         else
           _ ← update (fun st => fs_copy be st tmp path);
           update (fun st => fs_rm be st tmp))
        (fun e =>
           _ ← log_msg ERROR (failed ++ uri ++ ": " ++ exn_str e);
           raise e);
  _ ← log_msg INFO (saved ++ uri);
  mret uri.

Definition FeatureOutput_save_json : pyval → string → M string :=
  save_json_as "Failed atomic save for " "Saved FeatureOutput manifest to ".

Definition ModelOutput_save_json : pyval → string → M string :=
  save_json_as "Failed saving ModelOutput to " "Saved ModelOutput manifest to ".

Definition PipelineResult_save_json : pyval → string → M string :=
  save_json_as "Failed saving PipelineResult to "
               "Saved PipelineResult manifest to ".

(** [FeatureOutput.load_json] and [ModelOutput.load_json]: [parse] is
    [cls.parse_obj] and [what] the name of the class in the log line. *)
Definition load_json_as {A} (what : string) (parse : pyval → result A)
    (uri : string) : M A :=
  text ← query (fun st => fs_read be st (url_to_path uri));
  payload ← lift (json_loads text);
  obj ← lift (parse payload);
  _ ← log_msg INFO ("Loaded " ++ what ++ " from " ++ uri);
  mret obj.

(** ** Predicates used in the statements *)

(** The backend [b] with its listings returned in the order [f]. *)
Definition with_arrange (b : backend) (f : list string → list string)
  : backend :=
  Backend (has_makedirs b) (has_rename b) (fails b) (provider_info b) f
          (lists_placeholders b).

Definition is_byte (x : Z) : Prop := 0 ≤ x < 256.

(** A field that is listed in [PLATFORM_VARS] and not in [IDENTITY_VARS]. *)
Definition platform_only (k : string) : Prop :=
  k ∈ PLATFORM_VARS ∧ k ∉ IDENTITY_VARS.

(** The pieces of two neighbouring bytes that the encoder puts into one
    character, and how the decoder takes them apart again. *)
Definition regroup_ok (x y : Z) : Prop :=
  (0 ≤ Z.shiftr x 2 < 64
   ∧ 0 ≤ Z.lor (Z.shiftl (Z.land x 3) 4) (Z.shiftr y 4) < 64
   ∧ 0 ≤ Z.lor (Z.shiftl (Z.land x 15) 2) (Z.shiftr y 6) < 64
   ∧ 0 ≤ Z.land x 63 < 64)
  ∧ (Z.shiftr (Z.lor (Z.shiftl (Z.land x 3) 4) (Z.shiftr y 4)) 4 = Z.land x 3
     ∧ Z.land (Z.lor (Z.shiftl (Z.land x 3) 4) (Z.shiftr y 4)) 15 = Z.shiftr y 4
     ∧ Z.shiftr (Z.lor (Z.shiftl (Z.land x 15) 2) (Z.shiftr y 6)) 2 = Z.land x 15
     ∧ Z.land (Z.lor (Z.shiftl (Z.land x 15) 2) (Z.shiftr y 6)) 3 = Z.shiftr y 6)
  ∧ (Z.lor (Z.shiftl (Z.shiftr x 2) 2) (Z.land x 3) = x
     ∧ Z.lor (Z.shiftl (Z.shiftr x 4) 4) (Z.land x 15) = x
     ∧ Z.lor (Z.shiftl (Z.shiftr x 6) 6) (Z.land x 63) = x).

#[local] Instance regroup_ok_dec x y : Decision (regroup_ok x y).
Proof. unfold regroup_ok. apply _. Defined.

(** The two configurations agree on every attribute that is not
    platform-only. *)
Definition differ_only_in_platform_fields (cfg1 cfg2 : gmap string pyval) : Prop :=
  ∀ k, ¬ platform_only k → cfg1 !! k = cfg2 !! k.


(** * Properties *)

(** Drops from the context what the goal does not mention. *)
Ltac only_needed := repeat match goal with H : _ |- _ => clear H end.

(** The same, keeping the hypothesis [K]. *)
Ltac only_needed_but K :=
  repeat match goal with
         | H : _ |- _ => tryif constr_eq H K then fail else clear H
         end.

Ltac only_needed_but2 K1 K2 :=
  repeat match goal with
         | H : _ |- _ =>
             tryif first [constr_eq H K1 | constr_eq H K2] then fail else clear H
         end.

(** ** Facts on strings *)

Lemma str_app_cons c (s t : string) : String c s ++ t = String c (s ++ t).
Proof. reflexivity. Qed.

Lemma str_app_nil_l (t : string) : "" ++ t = t.
Proof. reflexivity. Qed.

Lemma str_app_nil_r (s : string) : s ++ "" = s.
Proof. induction s as [|c s IH]; [done|]. by rewrite str_app_cons, IH. Qed.

Lemma str_app_assoc (s t u : string) : (s ++ t) ++ u = s ++ t ++ u.
Proof. induction s as [|c s IH]; [done|]. by rewrite !str_app_cons, IH. Qed.

Lemma str_app_length (s t : string) :
  String.length (s ++ t) = (String.length s + String.length t)%nat.
Proof.
  induction s as [|c s IH]; [done|].
  rewrite str_app_cons. simpl. by rewrite IH.
Qed.

Lemma str_app_inv_head (s t u : string) : s ++ t = s ++ u → t = u.
Proof. apply (inj (String.app s)). Qed.

Lemma str_app_inv_tail (s t u : string) : s ++ u = t ++ u → s = t.
Proof.
  revert t. induction s as [|c s IH]; intros [|d t] H.
  - done.
  - apply (f_equal String.length) in H.
    rewrite str_app_cons, str_app_nil_l in H; simpl in H.
    rewrite str_app_length in H. lia.
  - apply (f_equal String.length) in H.
    rewrite str_app_cons, str_app_nil_l in H; simpl in H.
    rewrite str_app_length in H. lia.
  - rewrite !str_app_cons in H. injection H as -> H. f_equal. by apply IH.
Qed.

(** ** Lengths of digests *)

Lemma be_bytes_length k x : length (Hashlib.be_bytes k x) = k.
Proof.
  revert x. induction k as [|k IH]; intros x; simpl; [done|].
  rewrite length_app, IH. simpl. lia.
Qed.

Lemma hexlify_length l : String.length (Hashlib.hexlify l) = (2 * length l)%nat.
Proof.
  unfold Hashlib.hexlify.
  induction l as [|b l IH]; [done|].
  cbn [foldr]. rewrite str_app_length, IH. simpl. lia.
Qed.

Lemma sha256_hex_length msg : String.length (Hashlib.sha256_hex msg) = 64%nat.
Proof.
  unfold Hashlib.sha256_hex, Hashlib.sha256_digest, Hashlib.sha_words.
  generalize (foldl Hashlib.sha_block Hashlib.sha_init
                (Hashlib.chunk 64 (Hashlib.sha_pad msg))).
  intros st. rewrite hexlify_length.
  cbn [mbind list_bind mapM]. rewrite !length_app, !be_bytes_length. done.
Qed.

Lemma take_length n s :
  (n ≤ String.length s)%nat → String.length (PyStr.take n s) = n.
Proof.
  revert s. induction n as [|n IH]; intros [|c s] H; simpl in *; try lia.
  rewrite IH; lia.
Qed.

(** ** Run identity *)

(** C3. With the strict flag on, [compute_full_hash_and_run_id] raises when
    the data fingerprint is [None] or empty, and otherwise returns the
    SHA-256 hex digest of [canonical_json + "\n" + data_fingerprint] with
    its first 12 characters as run id; with the flag off it hashes
    [canonical_json] alone.  The hash has 64 characters and the run id 12. *)
Theorem compute_full_hash_and_run_id_spec (environ : gmap string string)
    (canonical_json : string) (c : ascii) (fp : string)
    (any_fp : option string) :
  compute_full_hash_and_run_id environ canonical_json None (Some true)
    = Raise (RuntimeError "Data fingerprint required but not provided")
  ∧ compute_full_hash_and_run_id environ canonical_json (Some "") (Some true)
    = Raise (RuntimeError "Data fingerprint required but not provided")
  ∧ (let full := Hashlib.sha256_hex
         (PyStr.bytes (canonical_json ++ PyStr.newline ++ String c fp)) in
     compute_full_hash_and_run_id environ canonical_json
       (Some (String c fp)) (Some true) = Ok (full, PyStr.take 12 full)
     ∧ String.length full = 64%nat
     ∧ String.length (PyStr.take 12 full) = 12%nat)
  ∧ (let full := Hashlib.sha256_hex (PyStr.bytes canonical_json) in
     compute_full_hash_and_run_id environ canonical_json any_fp (Some false)
       = Ok (full, PyStr.take 12 full)
     ∧ String.length full = 64%nat
     ∧ String.length (PyStr.take 12 full) = 12%nat).
Proof.
  repeat split; try reflexivity;
    try apply sha256_hex_length;
    apply take_length; rewrite sha256_hex_length; lia.
Qed.

(** ** Canonical configuration *)

Lemma build_canonical_config_ext (cfg1 cfg2 : gmap string pyval) :
  (∀ k, k ∈ IDENTITY_VARS → cfg1 !! k = cfg2 !! k) →
  build_canonical_config cfg1 = build_canonical_config cfg2.
Proof.
  only_needed.
  intros H. unfold build_canonical_config. f_equal.
  induction IDENTITY_VARS as [|k ks IH]; [done|].
  cbn [omap list_omap]. rewrite (H k) by set_solver.
  rewrite IH; [done|]. intros k' Hk'. apply H. set_solver.
Qed.

Lemma canonical_json_and_hash_ext environ (cfg1 cfg2 : gmap string pyval) fp :
  (∀ k, k ∈ IDENTITY_VARS → cfg1 !! k = cfg2 !! k) →
  canonical_json_and_hash environ cfg1 fp = canonical_json_and_hash environ cfg2 fp.
Proof.
  only_needed.
  intros H. unfold canonical_json_and_hash, getattr.
  rewrite (build_canonical_config_ext cfg1 cfg2 H).
  rewrite (H "STRICT_DATA_FINGERPRINT"); [done|].
  unfold IDENTITY_VARS. set_solver.
Qed.

(** C7. Two configurations that differ only in platform-only fields get
    the same canonical JSON, the same full hash and the same run id. *)
Theorem platform_fields_do_not_perturb_identity environ
    (cfg1 cfg2 : gmap string pyval) fp :
  differ_only_in_platform_fields cfg1 cfg2 →
  canonical_json_and_hash environ cfg1 fp = canonical_json_and_hash environ cfg2 fp.
Proof.
  intros H. apply canonical_json_and_hash_ext.
  intros k Hk. apply H. intros [_ Hn]. done.
Qed.

(** C9. The raw string ["3,1,2,3"] normalizes to the sorted, deduplicated
    array [["1","2","3"]], as ["1,2,3"] does; an environment giving a field
    either string is parsed to the same values, so that loading and hashing
    the configuration gives the same result; and a list value
    [[3,1,2,3]] of a configuration canonicalizes like [[1,2,3]]. *)
Theorem list_canonicalization_example (env : gmap string string)
    (field : string) environ fp (w : world) :
  _norm_scalar (Some "3,1,2,3") = VList [VStr "1"; VStr "2"; VStr "3"]
  ∧ _norm_scalar (Some "1,2,3") = VList [VStr "1"; VStr "2"; VStr "3"]
  ∧ parsed_fields (<[field := "3,1,2,3"]> env)
    = parsed_fields (<[field := "1,2,3"]> env)
  ∧ (cfg ← load_from_env (Some (<[field := "3,1,2,3"]> env));
     lift (canonical_json_and_hash environ cfg fp)) w
    = (cfg ← load_from_env (Some (<[field := "1,2,3"]> env));
       lift (canonical_json_and_hash environ cfg fp)) w
  ∧ canonical_value (VList [VInt 3; VInt 1; VInt 2; VInt 3])
    = canonical_value (VList [VInt 1; VInt 2; VInt 3])
  ∧ canonical_value (VList [VInt 3; VInt 1; VInt 2; VInt 3])
    = VList [VStr "1"; VStr "2"; VStr "3"].
Proof.
  assert (Hp : parsed_fields (<[field := "3,1,2,3"]> env)
               = parsed_fields (<[field := "1,2,3"]> env)).
  { unfold parsed_fields. apply list_fmap_ext. intros _ k _. f_equal.
    destruct (decide (field = k)) as [->|Hne].
    - rewrite !lookup_insert_eq. vm_compute. reflexivity.
    - by rewrite !lookup_insert_ne. }
  split; [vm_compute; reflexivity|].
  split; [vm_compute; reflexivity|].
  split; [exact Hp|].
  split; [|split; vm_compute; reflexivity].
  unfold load_from_env.
  rewrite !bool_decide_eq_false_2 by apply insert_non_empty.
  unfold mbind, M_bind, get_environ. by rewrite Hp.
Qed.

(** ** Content tokens *)

(** C4 (evaluation of the code). For the metadata [{"md5Hash":
    "1B2M2Y8AsgTpgAmY7PhCfg=="}], the base64 form of the 16-byte digest
    [d41d8cd98f00b204e9800998ecf8427e], [_extract_etag_like] returns the
    MD5 hash of those 16 bytes, which is not their hexadecimal form. *)
Theorem extract_etag_like_rehashes_base64_digest :
  let digest := [212; 29; 140; 217; 143; 0; 178; 4; 233; 128; 9; 152; 236;
                 248; 66; 126] in
  Base64.b64encode digest = "1B2M2Y8AsgTpgAmY7PhCfg=="
  ∧ Hashlib.hexlify digest = "d41d8cd98f00b204e9800998ecf8427e"
  ∧ _extract_etag_like [("md5Hash", MStr "1B2M2Y8AsgTpgAmY7PhCfg==")]
    = Some (Hashlib.md5_hex digest)
  ∧ Hashlib.md5_hex digest = "59adb24ef3cdbe0297f05b395827453f"
  ∧ _extract_etag_like [("md5Hash", MStr "1B2M2Y8AsgTpgAmY7PhCfg==")]
    ≠ Some (Hashlib.hexlify digest).
Proof. vm_compute. repeat split; discriminate. Qed.

(** ** Atomic write *)

Lemma prefix_app_tmp (u : string) :
  String.prefix "://" (u ++ ".tmp") = String.prefix "://" u.
Proof.
  destruct u as [|c1 [|c2 [|c3 u]]]; rewrite ?str_app_cons, ?str_app_nil_l;
    cbn [String.prefix];
    repeat (match goal with
            | |- context [ascii_dec ?a ?b] => destruct (ascii_dec a b)
            end; subst; try done).
  by destruct u.
Qed.

Lemma drop_app_tmp (u : string) :
  String.prefix "://" u = true →
  PyStr.drop 3 (u ++ ".tmp") = PyStr.drop 3 u ++ ".tmp".
Proof.
  destruct u as [|c1 [|c2 [|c3 u]]]; cbn [String.prefix];
    repeat (match goal with
            | |- context [ascii_dec ?a ?b] => destruct (ascii_dec a b)
            end; subst; try done);
    done.
Qed.

Lemma after_scheme_app_tmp (u : string) :
  after_scheme (u ++ ".tmp") = (fun r => r ++ ".tmp") <$> after_scheme u.
Proof.
  induction u as [|c u IH]; [done|].
  rewrite str_app_cons. cbn [after_scheme]. unfold PyStr.startswith.
  rewrite <- str_app_cons, prefix_app_tmp.
  destruct (String.prefix "://" (String c u)) eqn:Hp.
  - cbn [fmap option_fmap option_map]. f_equal. by apply drop_app_tmp.
  - exact IH.
Qed.

Lemma url_to_path_tmp (uri : string) :
  url_to_path (uri ++ ".tmp") = url_to_path uri ++ ".tmp".
Proof.
  unfold url_to_path. rewrite after_scheme_app_tmp.
  by destruct (after_scheme uri).
Qed.

Lemma tmp_path_ne (uri : string) :
  url_to_path (uri ++ ".tmp") ≠ url_to_path uri.
Proof.
  rewrite url_to_path_tmp. intros H.
  apply (f_equal String.length) in H. rewrite str_app_length in H.
  simpl in H. lia.
Qed.

Ltac run_io :=
  unfold mbind, M_bind, mret, M_ret, try_except, update, raise, query, lift,
    log_msg, get_environ, set_environ, guard in *;
  cbn [fst snd w_store w_environ w_log] in *.

Ltac split_backend_calls :=
  repeat match goal with
         | _ => progress cbn [fst snd w_store w_environ w_log fs_makedirs
                               fs_write fs_rename fs_copy fs_rm]
         | |- context [<[?k := ?v]> ?m !! ?k] =>
             rewrite (lookup_insert_eq m k v)
         | H : ?a ≠ ?b |- context [<[?a := ?v]> ?m !! ?b] =>
             rewrite (lookup_insert_ne m a b v H)
         | |- context [if has_makedirs ?b then _ else _] =>
             destruct (has_makedirs b)
         | |- context [if has_rename ?b then _ else _] =>
             destruct (has_rename b)
         | |- context [if fails ?b ?op ?p then _ else _] =>
             destruct (fails b op p)
         | |- context [match ?m !! ?k with _ => _ end] =>
             let E := fresh "E" in destruct (m !! k) as [[]|] eqn:E
         end.

(** What [_atomic_write_json] leaves behind, whatever fails: the file at
    the final path is the complete serialization or the file that was
    there before; a normal return means the complete serialization is at
    the final path; and the only exceptions are the one of the write of
    the temporary object and the persistence error. *)
Lemma atomic_write_outcome obj uri w r w' :
  _atomic_write_json obj uri w = (r, w') →
  let path := url_to_path uri in
  let data := json_dumps_indent2 obj in
  w_environ w' = w_environ w ∧ w_log w' = w_log w
  ∧ (∀ u, r = Ok u → u = uri ∧ w_store w' !! path = Some (File data))
  ∧ (∀ c, w_store w' !! path = Some (File c) →
          c = data ∨ w_store w !! path = Some (File c))
  ∧ (∀ e, r = Raise e →
          e = BackendError "write" (url_to_path (uri ++ ".tmp"))
          ∨ e = RuntimeError ("Failed atomic write for " ++ uri)).
Proof.
  pose proof (tmp_path_ne uri) as Hne.
  pose proof (not_eq_sym Hne) as Hne'.
  unfold _atomic_write_json. run_io. unfold fs_makedirs, fs_write, fs_rename,
    fs_copy, fs_rm, guard.
  destruct (decide (dirname (url_to_path uri) = url_to_path uri)) as [Hd|Hd];
    [rewrite Hd|];
    split_backend_calls; intros [= <- <-]; cbn [w_store w_environ w_log];
    (split; [done|]); (split; [done|]);
    (split; [intros ? [= <-] || intros ? [=]|]);
    simplify_map_eq; try done;
    (split; [intros ? ?; simplify_map_eq; eauto|]);
    intros ? ?; simplify_eq; eauto.
Qed.






(** ** Sorting *)

Lemma sorted_Sorted l : Sorted String.le (sorted l).
Proof. apply (Sorted_merge_sort String.le). Qed.

Lemma sorted_Permutation l : sorted l ≡ₚ l.
Proof. apply (merge_sort_Permutation String.le). Qed.

(** Sorting forgets the order of its input. *)
Lemma sorted_of_Permutation l1 l2 : l1 ≡ₚ l2 → sorted l1 = sorted l2.
Proof.
  intros H. apply (Sorted_unique String.le); try apply sorted_Sorted.
  by rewrite !sorted_Permutation.
Qed.

(** ** The snapshot of the environment *)

Lemma dict_get_tabulate (g : string → pyval) (keys : list string) k :
  k ∈ keys → dict_get ((fun k => (k, g k)) <$> keys) k = g k.
Proof.
  only_needed.
  induction keys as [|k' keys IH]; [by intros ?%elem_of_nil|].
  intros Hin. cbn [fmap list_fmap dict_get].
  destruct (String.eqb_spec k' k) as [->|Hne]; [done|].
  apply IH. set_solver.
Qed.

Lemma environ_keys_spec (environ : gmap string string) k :
  k ∈ environ_keys environ ↔ is_Some (environ !! k).
Proof.
  unfold environ_keys. rewrite list_elem_of_fmap. split.
  - intros [[k' v] [-> Hin]]. apply elem_of_map_to_list in Hin. by eexists.
  - intros [v Hv]. exists (k, v). split; [done|]. by apply elem_of_map_to_list.
Qed.


(** ** The idempotence gate *)






(** ** The data fingerprint: order of the listing *)

Section ListingOrder.

Variable b : backend.
Variable f : list string → list string.
Hypothesis f_perm : ∀ l, f l ≡ₚ arrange b l.

Variable st : store.

Lemma retry_ext {A} (fn gn : unit → result A) attempts :
  (∀ u, fn u = gn u) → _retry fn attempts = _retry gn attempts.
Proof.
  intros H. unfold _retry. generalize (@None exn).
  induction attempts as [|n IH]; intros last; [done|].
  cbn [_retry_go]. rewrite H. destruct (gn ()); [done|]. apply IH.
Qed.

Lemma bind_Permutation_pointwise {A B} (g h : A → list B) (l1 l2 : list A) :
  l1 ≡ₚ l2 → (∀ x, g x ≡ₚ h x) → l1 ≫= g ≡ₚ l2 ≫= h.
Proof.
  intros Hl Hgh. rewrite Hl. clear l1 Hl.
  induction l2 as [|x l IH]; [done|].
  cbn [mbind list_bind]. by rewrite (Hgh x), IH.
Qed.

Lemma fs_find_with_arrange root :
  match fs_find (with_arrange b f) st root, fs_find b st root with
  | Ok l1, Ok l2 => l1 ≡ₚ l2
  | Raise e1, Raise e2 => e1 = e2
  | _, _ => False
  end.
Proof using f_perm.
  unfold fs_find, guard, with_arrange. cbn [fails arrange lists_placeholders].
  destruct (fails b OpFind root); [done|]. apply f_perm.
Qed.

Lemma ls_files_with_arrange (l1 l2 : list ls_entry) :
  l1 ≡ₚ l2 → ls_files (with_arrange b f) st l1 ≡ₚ ls_files b st l2.
Proof using f_perm.
  intros Hl. unfold ls_files. apply bind_Permutation_pointwise; [done|].
  intros e. destruct (String.eqb (e_type e) "directory"); [|done].
  pose proof (fs_find_with_arrange (e_name e)) as Hf.
  by destruct (fs_find (with_arrange b f) st (e_name e)),
              (fs_find b st (e_name e)).
Qed.

Lemma list_files_with_arrange root :
  _list_files (with_arrange b f) st root = _list_files b st root.
Proof using f_perm.
  unfold _list_files.
  pose proof (fs_find_with_arrange root) as Hf.
  destruct (fs_find (with_arrange b f) st root) as [l1|e1],
           (fs_find b st root) as [l2|e2]; try done.
  - f_equal. apply sorted_of_Permutation. unfold keep_files. by rewrite Hf.
  - unfold fs_ls, guard, with_arrange at 1 2.
    cbn [fails arrange]. destruct (fails b OpLs root); [done|].
    f_equal. apply sorted_of_Permutation. unfold keep_files.
    apply filter_Permutation, ls_files_with_arrange.
    by rewrite f_perm.
Qed.

Lemma token_for_path_with_arrange prefer p :
  _token_for_path (with_arrange b f) st prefer p = _token_for_path b st prefer p.
Proof. reflexivity. Qed.

(** C6. Returning the listings of the storage backend in another order, any
    permutation of the one they had, leaves [compute_data_fingerprint]
    unchanged: same fingerprint, or same exception. *)
Theorem fingerprint_listing_order_independent data_root prefer_etag attempts :
  compute_data_fingerprint (with_arrange b f) st data_root prefer_etag attempts
  = compute_data_fingerprint b st data_root prefer_etag attempts.
Proof using f_perm.
  unfold compute_data_fingerprint, fingerprint_concat.
  destruct (String.eqb data_root ""); [done|].
  set (root := PyStr.rstrip_char "/" _).
  assert (Hl : _retry (fun _ => _list_files (with_arrange b f) st root) attempts
               = _retry (fun _ => _list_files b st root) attempts).
  { apply retry_ext. intros _. apply list_files_with_arrange. }
  by rewrite Hl.
Qed.

End ListingOrder.

(** ** The data fingerprint: content and empty directories *)



Lemma startswith_self_slash (d : string) : PyStr.startswith (d ++ "/") d = false.
Proof.
  unfold PyStr.startswith. induction d as [|c d IH]; [done|].
  rewrite str_app_cons. cbn [String.prefix].
  by destruct (ascii_dec c c).
Qed.

Lemma str_app_inj_length (a b x y : string) :
  String.length a = String.length b → a ++ x = b ++ y → a = b.
Proof.
  revert b. induction a as [|c a IH]; intros [|d b] Hl H; try done.
  rewrite !str_app_cons in H. injection H as -> H. f_equal.
  apply IH; [by injection Hl|done].
Qed.


Lemma mapM_result_ext {A B} (g h : A → result B) (l : list A) :
  (∀ x, x ∈ l → g x = h x) → mapM g l = mapM h l.
Proof.
  only_needed.
  induction l as [|x l IH]; intros H; [done|].
  cbn [mapM]. rewrite (H x) by set_solver.
  rewrite IH; [done|]. intros y Hy. apply H. set_solver.
Qed.



Section ContentSensitivity.

Variable b : backend.
Hypothesis arrange_perm : ∀ l, arrange b l ≡ₚ l.




(** *** Adding an empty directory *)

Section EmptyDirectory.

Variable st : store.
Variable d : string.
Hypothesis d_empty : ∀ p, under d p = true → st !! p = None.


Lemma bind_nil {A B} (g : A → list B) (l : list A) :
  (∀ x, x ∈ l → g x = []) → l ≫= g = [].
Proof.
  only_needed.
  induction l as [|x l IH]; intros H; [done|].
  cbn [mbind list_bind]. rewrite (H x) by set_solver.
  rewrite IH; [done|]. intros y Hy. apply H. set_solver.
Qed.












End EmptyDirectory.

(** *** Changing the content of a file *)





Section ContentChange.

Variable st : store.
Variable p : string.
Variables c c' : string.
Hypothesis p_file : st !! p = Some (File c).








End ContentChange.


End ContentSensitivity.

(** *** Base64 digests in general *)

Lemma sextet_alphabet_char v :
  0 ≤ v < 64 →
  Base64.sextet (Base64.alphabet_char v) = Some v
  ∧ Ascii.eqb (Base64.alphabet_char v) "="%char = false
  ∧ (PyStr.code (Base64.alphabet_char v) <? 128)%N = true.
Proof.
  only_needed. intros Hv.
  assert (Hall : forallb (fun v =>
            bool_decide (Base64.sextet (Base64.alphabet_char v) = Some v)
            && negb (Ascii.eqb (Base64.alphabet_char v) "="%char)
            && (PyStr.code (Base64.alphabet_char v) <? 128)%N) (seqZ 0 64) = true)
    by (vm_compute; reflexivity).
  rewrite forallb_forall in Hall.
  specialize (Hall v). rewrite <- list_elem_of_In, elem_of_seqZ in Hall.
  specialize (Hall ltac:(lia)).
  apply andb_prop in Hall as [[H1%bool_decide_eq_true H2%negb_true_iff]%andb_prop H3].
  done.
Qed.

Lemma base64_regroup x y : is_byte x → is_byte y → regroup_ok x y.
Proof.
  only_needed. unfold is_byte. intros Hx Hy.
  assert (Hall : forallb (fun x => forallb (fun y =>
            bool_decide (regroup_ok x y)) (seqZ 0 256)) (seqZ 0 256) = true)
    by (vm_compute; reflexivity).
  rewrite forallb_forall in Hall.
  specialize (Hall x). rewrite <- list_elem_of_In, elem_of_seqZ in Hall.
  specialize (Hall ltac:(lia)). rewrite forallb_forall in Hall.
  specialize (Hall y). rewrite <- list_elem_of_In, elem_of_seqZ in Hall.
  specialize (Hall ltac:(lia)). by apply bool_decide_eq_true in Hall.
Qed.

Lemma triples_ind {A} (P : list A → Prop) :
  P [] → (∀ x, P [x]) → (∀ x y, P [x; y]) →
  (∀ x y z l, P l → P (x :: y :: z :: l)) →
  ∀ l, P l.
Proof.
  only_needed. intros H0 H1 H2 H3 l.
  enough (P l ∧ (∀ x, P (x :: l)) ∧ (∀ x y, P (x :: y :: l))) by tauto.
  induction l as [|a l (IH0 & IH1 & IH2)]; [by split_and!|].
  split; [apply IH1|]. split; [intros x; apply IH2|].
  intros x y. by apply H3.
Qed.

Ltac decode_char v :=
  let H1 := fresh in let H2 := fresh in let H3 := fresh in
  destruct (sextet_alphabet_char v) as (H1 & H2 & H3); [lia|];
  rewrite ?H1, ?H2; clear H1 H2 H3.

Lemma pad_zero_l (a : Z) : a = Z.lor a (Z.shiftr 0 4).
Proof. only_needed. by rewrite Z.shiftr_0_l, Z.lor_0_r. Qed.

Lemma pad_zero_r (a : Z) : a = Z.lor a (Z.shiftr 0 6).
Proof. only_needed. by rewrite Z.shiftr_0_l, Z.lor_0_r. Qed.

(** Decoding what [b64encode] produced gives the bytes back. *)
Lemma a2b_go_b64encode (b : list Z) :
  Forall is_byte b →
  ∀ out, Base64.a2b_go 0 0 0 out (Base64.b64encode b)
         = Some (reverse out ++ b)%list.
Proof.
  only_needed.
  assert (H0 : is_byte 0) by (unfold is_byte; lia).
  induction b as [|x|x y|x y z l IH] using triples_ind.
  - intros _ out. cbn. by rewrite app_nil_r.
  - intros [Hx _]%Forall_cons out.
    destruct (base64_regroup x 0 Hx H0)
      as ((? & ? & _) & (R1 & _) & (R5 & _)).
    cbn [Base64.b64encode Base64.a2b_go].
    rewrite (pad_zero_l (Z.shiftl (Z.land x 3) 4)).
    decode_char (Z.shiftr x 2). cbn [Z.eqb].
    decode_char (Z.lor (Z.shiftl (Z.land x 3) 4) (Z.shiftr 0 4)).
    cbn -[reverse Z.shiftl Z.shiftr Z.land Z.lor Z.leb Z.add].
    change (4 <=? 2 + (0 + 1)) with false.
    change (4 <=? 2 + (0 + 1 + 1)) with true. cbv iota.
    rewrite R1, R5. by rewrite reverse_cons.
  - intros [Hx [Hy _]%Forall_cons]%Forall_cons out.
    destruct (base64_regroup x y Hx Hy)
      as ((? & ? & _) & (R1 & R2 & _) & (R5 & _)).
    destruct (base64_regroup y 0 Hy H0)
      as ((_ & _ & ? & _) & (_ & _ & R3 & _) & (_ & R6 & _)).
    cbn [Base64.b64encode Base64.a2b_go].
    rewrite (pad_zero_r (Z.shiftl (Z.land y 15) 2)).
    decode_char (Z.shiftr x 2). cbn [Z.eqb].
    decode_char (Z.lor (Z.shiftl (Z.land x 3) 4) (Z.shiftr y 4)). cbn [Z.eqb].
    decode_char (Z.lor (Z.shiftl (Z.land y 15) 2) (Z.shiftr 0 6)).
    cbn -[reverse Z.shiftl Z.shiftr Z.land Z.lor Z.leb Z.add].
    change (4 <=? 3 + (0 + 1)) with true. cbv iota.
    rewrite R1, R2, R3, R5, R6. by rewrite !reverse_cons, <- !app_assoc.
  - intros [Hx [Hy [Hz Hl]%Forall_cons]%Forall_cons]%Forall_cons out.
    destruct (base64_regroup x y Hx Hy)
      as ((? & ? & _) & (R1 & R2 & _) & (R5 & _)).
    destruct (base64_regroup y z Hy Hz)
      as ((_ & _ & ? & _) & (_ & _ & R3 & R4) & (_ & R6 & _)).
    destruct (base64_regroup z 0 Hz H0) as ((_ & _ & _ & ?) & _ & (_ & _ & R7)).
    cbn [Base64.b64encode Base64.a2b_go].
    decode_char (Z.shiftr x 2). cbn [Z.eqb].
    decode_char (Z.lor (Z.shiftl (Z.land x 3) 4) (Z.shiftr y 4)). cbn [Z.eqb].
    decode_char (Z.lor (Z.shiftl (Z.land y 15) 2) (Z.shiftr z 6)). cbn [Z.eqb].
    decode_char (Z.land z 63). cbn [Z.eqb Pos.eqb].
    rewrite R1, R2, R3, R4, R5, R6, R7, (IH Hl).
    by rewrite !reverse_cons, <- !app_assoc.
Qed.

Lemma b64encode_ascii (b : list Z) :
  Forall is_byte b →
  PyStr.all_chars (fun c => (PyStr.code c <? 128)%N) (Base64.b64encode b) = true.
Proof.
  only_needed.
  assert (H0 : is_byte 0) by (unfold is_byte; lia).
  induction b as [|x|x y|x y z l IH] using triples_ind.
  - done.
  - intros [Hx _]%Forall_cons.
    destruct (base64_regroup x 0 Hx H0) as ((? & ? & _) & _).
    cbn [Base64.b64encode PyStr.all_chars].
    rewrite (pad_zero_l (Z.shiftl (Z.land x 3) 4)).
    destruct (sextet_alphabet_char (Z.shiftr x 2)) as (_ & _ & ->); [lia|].
    by destruct (sextet_alphabet_char
                   (Z.lor (Z.shiftl (Z.land x 3) 4) (Z.shiftr 0 4)))
      as (_ & _ & ->); [lia|].
  - intros [Hx [Hy _]%Forall_cons]%Forall_cons.
    destruct (base64_regroup x y Hx Hy) as ((? & ? & _) & _).
    destruct (base64_regroup y 0 Hy H0) as ((_ & _ & ? & _) & _).
    cbn [Base64.b64encode PyStr.all_chars].
    rewrite (pad_zero_r (Z.shiftl (Z.land y 15) 2)).
    destruct (sextet_alphabet_char (Z.shiftr x 2)) as (_ & _ & ->); [lia|].
    destruct (sextet_alphabet_char
                (Z.lor (Z.shiftl (Z.land x 3) 4) (Z.shiftr y 4)))
      as (_ & _ & ->); [lia|].
    by destruct (sextet_alphabet_char
                   (Z.lor (Z.shiftl (Z.land y 15) 2) (Z.shiftr 0 6)))
      as (_ & _ & ->); [lia|].
  - intros [Hx [Hy [Hz Hl]%Forall_cons]%Forall_cons]%Forall_cons.
    destruct (base64_regroup x y Hx Hy) as ((? & ? & _) & _).
    destruct (base64_regroup y z Hy Hz) as ((_ & _ & ? & _) & _).
    destruct (base64_regroup z 0 Hz H0) as ((_ & _ & _ & ?) & _).
    cbn [Base64.b64encode PyStr.all_chars].
    destruct (sextet_alphabet_char (Z.shiftr x 2)) as (_ & _ & ->); [lia|].
    destruct (sextet_alphabet_char
                (Z.lor (Z.shiftl (Z.land x 3) 4) (Z.shiftr y 4)))
      as (_ & _ & ->); [lia|].
    destruct (sextet_alphabet_char
                (Z.lor (Z.shiftl (Z.land y 15) 2) (Z.shiftr z 6)))
      as (_ & _ & ->); [lia|].
    destruct (sextet_alphabet_char (Z.land z 63)) as (_ & _ & ->); [lia|].
    by apply IH.
Qed.

Lemma b64decode_b64encode (b : list Z) :
  Forall is_byte b → Base64.b64decode (Base64.b64encode b) = Some b.
Proof.
  only_needed. intros Hb. unfold Base64.b64decode.
  by rewrite b64encode_ascii, a2b_go_b64encode.
Qed.

(** For every 16-byte digest, not only the one of the empty input: given
    its base64 form under a digest key, [_extract_etag_like] returns the
    MD5 hash of the 16 bytes. *)
Lemma extract_etag_like_base64_digest (digest : list Z) :
  Forall is_byte digest → length digest = 16%nat →
  _extract_etag_like [("md5Hash", MStr (Base64.b64encode digest))]
  = Some (Hashlib.md5_hex digest).
Proof.
  only_needed. intros Hb Hlen.
  assert (Hdec := b64decode_b64encode digest Hb).
  assert (Hl : String.length (Base64.b64encode digest) = 24%nat).
  { do 17 (destruct digest as [|? digest]; try done). }
  assert (Hetag : etag_of_key [("md5Hash", MStr (Base64.b64encode digest))]
                    "md5Hash" = Some (Hashlib.md5_hex digest)).
  { unfold etag_of_key.
    change (info_get _ "md5Hash") with (MStr (Base64.b64encode digest)).
    cbn [truthy meta_str].
    assert (Hne : String.eqb (Base64.b64encode digest) "" = false).
    { by destruct (Base64.b64encode digest). }
    unfold _is_hex32. rewrite Hne, Hl, Hdec, Hlen. done. }
  unfold _extract_etag_like, etag_keys.
  cbn [etag_loop].
  change (etag_of_key _ "ETag") with (@None string).
  change (etag_of_key _ "etag") with (@None string).
  change (etag_of_key _ "etag_md5") with (@None string).
  change (etag_of_key _ "md5") with (@None string).
  cbv iota. by rewrite Hetag.
Qed.

(** * Further properties of the code *)

(** ** Facts on the string primitives *)

Lemma rev_app_spec (s acc : string) :
  String.rev_app s acc = String.rev s ++ acc.
Proof.
  only_needed. unfold String.rev. revert acc.
  induction s as [|c s IH]; intros acc; cbn [String.rev_app]; [done|].
  rewrite (IH (String c acc)), (IH (String c "")).
  by rewrite str_app_assoc.
Qed.

Lemma rev_cons c (s : string) :
  String.rev (String c s) = String.rev s ++ String c "".
Proof. only_needed. unfold String.rev at 1. cbn. apply rev_app_spec. Qed.

Lemma rev_app_distr (s t : string) :
  String.rev (s ++ t) = String.rev t ++ String.rev s.
Proof.
  only_needed. induction s as [|c s IH].
  - by rewrite str_app_nil_l, str_app_nil_r.
  - by rewrite str_app_cons, !rev_cons, IH, str_app_assoc.
Qed.

Lemma rev_involutive (s : string) : String.rev (String.rev s) = s.
Proof.
  only_needed. induction s as [|c s IH]; [done|].
  by rewrite rev_cons, rev_app_distr, IH.
Qed.

Lemma rev_empty (s : string) : String.rev s = "" ↔ s = "".
Proof.
  only_needed. split; [|by intros ->].
  intros H. by rewrite <- (rev_involutive s), H.
Qed.

Lemma all_chars_app p (s t : string) :
  PyStr.all_chars p (s ++ t) = PyStr.all_chars p s && PyStr.all_chars p t.
Proof.
  only_needed. induction s as [|c s IH]; [done|].
  rewrite str_app_cons. cbn [PyStr.all_chars]. rewrite IH. by destruct (p c).
Qed.

Lemma all_chars_rev p (s : string) :
  PyStr.all_chars p (String.rev s) = PyStr.all_chars p s.
Proof.
  only_needed. induction s as [|c s IH]; [done|].
  rewrite rev_cons, all_chars_app, IH. cbn [PyStr.all_chars].
  by destruct (p c), (PyStr.all_chars p s).
Qed.

Lemma contains_char_app c (s t : string) :
  PyStr.contains_char c (s ++ t)
  = PyStr.contains_char c s || PyStr.contains_char c t.
Proof.
  only_needed. induction s as [|a s IH]; [done|].
  rewrite str_app_cons. cbn [PyStr.contains_char]. rewrite IH.
  by destruct (Ascii.eqb a c).
Qed.

Lemma contains_char_rev c (s : string) :
  PyStr.contains_char c (String.rev s) = PyStr.contains_char c s.
Proof.
  only_needed. induction s as [|a s IH]; [done|].
  rewrite rev_cons, contains_char_app, IH. cbn [PyStr.contains_char].
  by destruct (Ascii.eqb a c), (PyStr.contains_char c s).
Qed.

Lemma all_chars_not_contains p c (s : string) :
  p c = false → PyStr.all_chars p s = true → PyStr.contains_char c s = false.
Proof.
  only_needed. intros Hc. induction s as [|a s IH]; [done|].
  cbn [PyStr.all_chars PyStr.contains_char].
  intros [Ha Hs]%andb_prop. rewrite (IH Hs).
  destruct (Ascii.eqb_spec a c) as [->|]; [congruence|done].
Qed.

Lemma split_go_contains c sep cur (s : string) :
  c ≠ sep →
  existsb (PyStr.contains_char c) (PyStr.split_go sep cur s)
  = PyStr.contains_char c (String.rev cur) || PyStr.contains_char c s.
Proof.
  only_needed. intros Hne. revert cur.
  induction s as [|a s IH]; intros cur; cbn [PyStr.split_go].
  - cbn. by rewrite !orb_false_r.
  - destruct (Ascii.eqb_spec a sep) as [->|Ha].
    + cbn [existsb PyStr.contains_char]. rewrite IH.
      destruct (Ascii.eqb_spec sep c) as [->|]; [done|]. done.
    + rewrite IH, rev_cons, contains_char_app. cbn [PyStr.contains_char].
      rewrite orb_false_r. by rewrite orb_assoc.
Qed.

Lemma split_contains c sep (s : string) :
  c ≠ sep →
  existsb (PyStr.contains_char c) (PyStr.split sep s) = PyStr.contains_char c s.
Proof. only_needed. intros H. unfold PyStr.split. by rewrite split_go_contains. Qed.

Lemma lower_char_comma a :
  Ascii.eqb (PyStr.lower_char a) ","%char = Ascii.eqb a ","%char.
Proof.
  only_needed. by destruct a as [[] [] [] [] [] [] [] []].
Qed.

Lemma contains_comma_lower (s : string) :
  PyStr.contains_char "," (PyStr.lower s) = PyStr.contains_char "," s.
Proof.
  only_needed. induction s as [|a s IH]; [done|].
  cbn [PyStr.lower PyStr.contains_char]. by rewrite lower_char_comma, IH.
Qed.

Lemma lstrip_empty (s : string) :
  PyStr.lstrip s = "" ↔ PyStr.all_chars PyStr.is_space s = true.
Proof.
  only_needed. induction s as [|c s IH]; [done|].
  cbn [PyStr.lstrip PyStr.all_chars]. destruct (PyStr.is_space c); [exact IH|].
  done.
Qed.

Lemma all_space_lstrip (s : string) :
  PyStr.all_chars PyStr.is_space (PyStr.lstrip s)
  = PyStr.all_chars PyStr.is_space s.
Proof.
  only_needed. induction s as [|c s IH]; [done|].
  cbn [PyStr.lstrip]. destruct (PyStr.is_space c) eqn:Hc.
  - cbn [PyStr.all_chars]. by rewrite Hc.
  - done.
Qed.

(** [s.strip()] is empty exactly on the strings of whitespace. *)
Lemma strip_empty (s : string) :
  PyStr.strip s = "" ↔ PyStr.all_chars PyStr.is_space s = true.
Proof.
  only_needed. unfold PyStr.strip, PyStr.rstrip.
  by rewrite rev_empty, lstrip_empty, all_chars_rev, all_space_lstrip.
Qed.

(** ** Sorted lists without duplicates *)

Lemma dict_fromkeys_go_elem seen l x :
  x ∈ dict_fromkeys_go seen l ↔ x ∈ l ∧ x ∉ seen.
Proof.
  only_needed. revert seen.
  induction l as [|y l IH]; intros seen; cbn [dict_fromkeys_go].
  - set_solver.
  - case_bool_decide.
    + rewrite IH. set_solver.
    + rewrite elem_of_cons, IH. destruct (decide (x = y)); set_solver.
Qed.

Lemma dict_fromkeys_go_NoDup seen l : NoDup (dict_fromkeys_go seen l).
Proof.
  only_needed. revert seen.
  induction l as [|y l IH]; intros seen; cbn [dict_fromkeys_go].
  - constructor.
  - case_bool_decide; [apply IH|].
    constructor; [|apply IH]. rewrite dict_fromkeys_go_elem. set_solver.
Qed.

Lemma dict_fromkeys_elem l x : x ∈ dict_fromkeys l ↔ x ∈ l.
Proof.
  only_needed. unfold dict_fromkeys. rewrite dict_fromkeys_go_elem. set_solver.
Qed.

Lemma dict_fromkeys_NoDup l : NoDup (dict_fromkeys l).
Proof. only_needed. apply dict_fromkeys_go_NoDup. Qed.

(** The sorted list of the distinct elements depends on the set of the
    elements only. *)
Lemma canonical_list_ext l1 l2 :
  (∀ x, x ∈ l1 ↔ x ∈ l2) →
  sorted (dict_fromkeys l1) = sorted (dict_fromkeys l2).
Proof.
  only_needed. intros H. apply sorted_of_Permutation.
  apply NoDup_Permutation; try apply dict_fromkeys_NoDup.
  intros x. by rewrite !dict_fromkeys_elem.
Qed.

Lemma canonical_list_spec l :
  Sorted String.le (sorted (dict_fromkeys l))
  ∧ NoDup (sorted (dict_fromkeys l))
  ∧ ∀ x, x ∈ sorted (dict_fromkeys l) ↔ x ∈ l.
Proof.
  only_needed. split_and!.
  - apply sorted_Sorted.
  - rewrite sorted_Permutation. apply dict_fromkeys_NoDup.
  - intros x. by rewrite sorted_Permutation, dict_fromkeys_elem.
Qed.

(** ** [_norm_scalar] *)

(** The pieces of a comma-separated value, as [_norm_scalar] cuts them. *)
Lemma norm_scalar_comma (s : string) :
  PyStr.contains_char "," (PyStr.strip s) = true →
  _norm_scalar (Some s)
  = VList (VStr <$> sorted (dict_fromkeys
      (filter (fun i => i ≠ "")
         (PyStr.strip <$> PyStr.split "," (PyStr.strip s))))).
Proof.
  only_needed. intros Hc. unfold _norm_scalar.
  set (t := PyStr.strip s) in *.
  destruct (String.eqb_spec t "") as [Ht|_]; [by rewrite Ht in Hc|].
  rewrite bool_decide_eq_false_2.
  2:{ intros Hin. rewrite <- contains_comma_lower in Hc.
      unfold bool_tokens in Hin.
      repeat (apply elem_of_cons in Hin as [Hin|Hin];
              [by rewrite Hin in Hc|]).
      by apply elem_of_nil in Hin. }
  assert (Hdigits : ∀ u, PyStr.all_chars PyStr.is_digit u = true →
                         PyStr.contains_char "," u = false).
  { intros u. by apply all_chars_not_contains. }
  assert (Hint : match_int t = false).
  { apply not_true_is_false. unfold match_int.
    intros [_ Hd]%andb_prop. apply Hdigits in Hd.
    destruct t as [|a t']; [done|].
    destruct (Ascii.eqb_spec a "-") as [->|Hne].
    - cbn in Hc. by rewrite Hd in Hc.
    - assert (match String a t' with
              | String "-" s' => s'
              | _ => String a t'
              end = String a t') as Hb.
      { by destruct a as [[] [] [] [] [] [] [] []]. }
      rewrite Hb in Hd. by rewrite Hd in Hc. }
  assert (Hdec : match_decimal t = false).
  { apply not_true_is_false. unfold match_decimal.
    set (body := match t with String "-" s' => s' | _ => t end).
    assert (Hbody : PyStr.contains_char "," body = true).
    { subst body. destruct t as [|a t']; [done|].
      destruct (Ascii.eqb_spec a "-") as [->|Hne]; [exact Hc|].
      assert (match String a t' with
              | String "-" s' => s'
              | _ => String a t'
              end = String a t') as Hb.
      { by destruct a as [[] [] [] [] [] [] [] []]. }
      by rewrite Hb. }
    rewrite <- (split_contains "," "." body) in Hbody by done.
    destruct (PyStr.split "." body) as [|a [|b [|? ?]]]; try done.
    intros [[[_ Ha]%andb_prop _]%andb_prop Hb]%andb_prop.
    cbn in Hbody. by rewrite (Hdigits a Ha), (Hdigits b Hb) in Hbody. }
  by rewrite Hint, Hdec, Hc.
Qed.

(** X1. On ASCII text [_norm_scalar] returns [None] exactly on the strings
    that hold nothing but whitespace, the empty string among them: no
    other value of a variable is read as unset. *)
Theorem norm_scalar_none_iff_blank (s : string) :
  isascii s = true →
  _norm_scalar (Some s) = VNone ↔ PyStr.all_chars PyStr.is_space s = true.
Proof.
  only_needed. intros _.
  rewrite <- strip_empty. unfold _norm_scalar.
  destruct (String.eqb_spec (PyStr.strip s) "") as [Ht|Ht]; [done|].
  split; [|done].
  repeat case_match; done.
Qed.

(** X2. A value of ASCII text with a comma in it is read as a list
    whatever else it holds: the list of the distinct, non-empty, stripped
    pieces between the commas, in sorted order. *)
Theorem norm_scalar_comma_list (s : string) :
  isascii s = true →
  PyStr.contains_char "," (PyStr.strip s) = true →
  ∃ items,
    _norm_scalar (Some s) = VList (VStr <$> items)
    ∧ Sorted String.le items ∧ NoDup items
    ∧ ∀ x, x ∈ items ↔
           x ≠ "" ∧ ∃ piece, piece ∈ PyStr.split "," (PyStr.strip s)
                             ∧ PyStr.strip piece = x.
Proof.
  only_needed. intros _ Hc. eexists. split; [by apply norm_scalar_comma|].
  destruct (canonical_list_spec
    (filter (fun i => i ≠ "")
       (PyStr.strip <$> PyStr.split "," (PyStr.strip s)))) as (H1 & H2 & H3).
  split_and!; [done|done|].
  intros x. rewrite H3, list_elem_of_filter, list_elem_of_fmap. naive_solver.
Qed.

(** X3. Two comma-separated values of ASCII text with the same set of
    stripped pieces are read as the same list: the order of the pieces and
    their repetitions are forgotten. *)
Theorem norm_scalar_list_order_insensitive (s1 s2 : string) :
  isascii s1 = true → isascii s2 = true →
  PyStr.contains_char "," (PyStr.strip s1) = true →
  PyStr.contains_char "," (PyStr.strip s2) = true →
  (∀ x, x ∈ PyStr.strip <$> PyStr.split "," (PyStr.strip s1) ↔
        x ∈ PyStr.strip <$> PyStr.split "," (PyStr.strip s2)) →
  _norm_scalar (Some s1) = _norm_scalar (Some s2).
Proof.
  only_needed. intros _ _ H1 H2 H.
  rewrite !norm_scalar_comma by done. do 2 f_equal.
  apply canonical_list_ext. intros x. rewrite !list_elem_of_filter.
  by rewrite H.
Qed.

(** X4. [run_pipeline_local] reads [FORCE_RERUN] from the environment as
    [_norm_scalar] reads it for [PlatformConfig], on a value of ASCII text
    without surrounding whitespace or on no value: force-rerun is on
    exactly when [_norm_scalar] gives [True]. *)
Theorem force_rerun_agrees_with_norm_scalar (environ : gmap string string) :
  (∀ v, environ !! "FORCE_RERUN" = Some v →
        isascii v = true ∧ PyStr.strip v = v) →
  force_rerun_of environ = true
  ↔ _norm_scalar (environ !! "FORCE_RERUN") = VBool true.
Proof.
  only_needed. intros Hs. unfold force_rerun_of.
  destruct (environ !! "FORCE_RERUN") as [v|] eqn:Hv; [|done].
  cbn [default]. unfold _norm_scalar. rewrite (proj2 (Hs v eq_refl)).
  assert (Htok : ∀ t, t ∈ force_rerun_tokens ↔ t ∈ true_tokens).
  { intros t. unfold force_rerun_tokens, true_tokens. set_solver. }
  assert (Hsub : ∀ t, t ∈ true_tokens → t ∈ bool_tokens).
  { intros t. unfold bool_tokens, true_tokens. set_solver. }
  destruct (String.eqb_spec v "") as [->|Hne]; [done|].
  rewrite bool_decide_eq_true, Htok.
  case_bool_decide as Hb.
  - split; [intros Ht; by rewrite bool_decide_eq_true_2|].
    intros [= Ht]. by apply bool_decide_eq_true in Ht.
  - split; [intros Ht; by apply Hsub in Ht|].
    repeat case_match; done.
Qed.

(** ** [_to_abs_file_uri] *)

Lemma prefix_app (p x : string) : String.prefix p (p ++ x) = true.
Proof.
  only_needed. induction p as [|c p IH]; [by destruct x|].
  rewrite str_app_cons. cbn [String.prefix]. by destruct (ascii_dec c c).
Qed.

Lemma drop_app (p x : string) : PyStr.drop (String.length p) (p ++ x) = x.
Proof.
  only_needed. induction p as [|c p IH]; [by destruct x|].
  by rewrite str_app_cons.
Qed.

Lemma to_abs_file_uri_twice (u : string) :
  (∀ p, abspath (abspath p) = abspath p) →
  _to_abs_file_uri (_to_abs_file_uri u) = _to_abs_file_uri u.
Proof.
  only_needed_but abspath. intros Habs. unfold _to_abs_file_uri at 2 3.
  destruct (String.eqb u "") eqn:Hu; [unfold _to_abs_file_uri; by rewrite Hu|].
  destruct (PyStr.startswith "file://" u) eqn:Hf.
  - unfold _to_abs_file_uri, PyStr.startswith.
    rewrite prefix_app, (drop_app "file://"), Habs. done.
  - destruct (PyStr.startswith "/" u) eqn:Hs.
    + unfold _to_abs_file_uri, PyStr.startswith.
      rewrite prefix_app, (drop_app "file://"), Habs. done.
    + unfold _to_abs_file_uri. by rewrite Hu, Hf, Hs.
Qed.

(** X5. With an [os.path.abspath] that returns its own results
    unchanged, [_to_abs_file_uri] returns its own results unchanged too.
    [compute_data_fingerprint] makes its root absolute itself, so a root
    made absolute beforehand, as [bootstrap_and_hash] does for a local
    path, gives the fingerprint of the root as it was. *)
Theorem fingerprint_of_absolute_root (b : backend) (st : store)
    (data_root : string) prefer_etag attempts :
  (∀ p, abspath (abspath p) = abspath p) →
  _to_abs_file_uri (_to_abs_file_uri data_root) = _to_abs_file_uri data_root
  ∧ compute_data_fingerprint b st (_to_abs_file_uri data_root) prefer_etag
      attempts
    = compute_data_fingerprint b st data_root prefer_etag attempts.
Proof.
  only_needed_but abspath. intros Habs.
  split; [by apply to_abs_file_uri_twice|].
  unfold compute_data_fingerprint, fingerprint_concat.
  rewrite (to_abs_file_uri_twice data_root Habs).
  assert (Hempty : String.eqb (_to_abs_file_uri data_root) ""
                   = String.eqb data_root "").
  { unfold _to_abs_file_uri. destruct (String.eqb data_root "") eqn:Hu.
    - by rewrite Hu.
    - destruct (PyStr.startswith "file://" data_root); [done|].
      by destruct (PyStr.startswith "/" data_root). }
  by rewrite Hempty.
Qed.

(** ** [derive_artifact_root] *)

Lemma lstrip_char_idem c (s : string) :
  PyStr.lstrip_char c (PyStr.lstrip_char c s) = PyStr.lstrip_char c s.
Proof.
  only_needed. induction s as [|a s IH]; [done|].
  cbn [PyStr.lstrip_char]. destruct (Ascii.eqb a c) eqn:Ha; [done|].
  cbn [PyStr.lstrip_char]. by rewrite Ha.
Qed.

Lemma rstrip_char_idem c (s : string) :
  PyStr.rstrip_char c (PyStr.rstrip_char c s) = PyStr.rstrip_char c s.
Proof.
  only_needed. unfold PyStr.rstrip_char.
  by rewrite rev_involutive, lstrip_char_idem.
Qed.

(** X6. Two derivations with run ids of one length, as the 12-character
    ids are, give the same artifact root exactly when the run ids are equal
    and the pipeline roots are equal up to trailing slashes. *)
Theorem derive_artifact_root_injective (r1 r2 id1 id2 : string) :
  r1 ≠ "" → r2 ≠ "" → String.length id1 = String.length id2 →
  derive_artifact_root r1 id1 = derive_artifact_root r2 id2
  ↔ id1 = id2 ∧ PyStr.rstrip_char "/" r1 = PyStr.rstrip_char "/" r2.
Proof.
  only_needed. intros H1 H2 Hlen. unfold derive_artifact_root.
  destruct (String.eqb_spec r1 "") as [|_]; [done|].
  destruct (String.eqb_spec r2 "") as [|_]; [done|].
  split.
  - intros [= H].
    assert (Hp : PyStr.rstrip_char "/" r1 = PyStr.rstrip_char "/" r2).
    { apply (str_app_inj_length _ _ _ _ ) in H; [done|].
      apply (f_equal String.length) in H.
      rewrite !str_app_length in H. cbn in H. lia. }
    rewrite Hp in H. by apply str_app_inv_head, str_app_inv_head in H.
  - by intros [-> ->].
Qed.

(** ** [_extract_etag_like] *)

Lemma lower_length (s : string) : String.length (PyStr.lower s) = String.length s.
Proof. only_needed. induction s as [|c s IH]; [done|]. cbn. by rewrite IH. Qed.

Lemma lower_char_hex c :
  is_hex_char c = true → is_hex_char (PyStr.lower_char c) = true.
Proof. only_needed. by destruct c as [[] [] [] [] [] [] [] []]. Qed.

Lemma lower_hex32 (v : string) : _is_hex32 v = true → _is_hex32 (PyStr.lower v) = true.
Proof.
  only_needed. unfold _is_hex32. rewrite lower_length.
  intros [-> Hh]%andb_prop. cbn [andb].
  induction v as [|c v IH]; [done|].
  cbn [PyStr.lower PyStr.all_chars] in *.
  apply andb_prop in Hh as [Hc Hv]. by rewrite lower_char_hex, IH.
Qed.

Lemma md5_hex_length msg : String.length (Hashlib.md5_hex msg) = 32%nat.
Proof.
  only_needed. unfold Hashlib.md5_hex, Hashlib.md5_digest.
  generalize (foldl Hashlib.md5_block Hashlib.md5_init
                (Hashlib.chunk 64 (Hashlib.md5_pad msg))).
  intros st. rewrite hexlify_length.
  cbn [mbind list_bind]. unfold Hashlib.le_bytes.
  rewrite !length_app, !length_reverse, !be_bytes_length. done.
Qed.

Lemma etag_of_key_length info key t :
  etag_of_key info key = Some t → String.length t = 32%nat.
Proof.
  only_needed. unfold etag_of_key.
  destruct (negb (truthy (info_get info key))); [done|].
  destruct (_is_hex32 (meta_str (info_get info key))) eqn:Hh.
  - intros [= <-]. rewrite lower_length. unfold _is_hex32 in Hh.
    apply andb_prop in Hh as [Hl _]. by apply Nat.eqb_eq in Hl.
  - destruct (Base64.b64decode _) as [b|]; [|done].
    destruct (length b =? 16)%nat; [|done].
    intros [= <-]. apply md5_hex_length.
Qed.

Lemma etag_loop_length info keys t :
  etag_loop info keys = Some t → String.length t = 32%nat.
Proof.
  only_needed. induction keys as [|k keys IH]; [done|].
  cbn [etag_loop]. destruct (etag_of_key info k) eqn:Hk; [|exact IH].
  intros [= <-]. by eapply etag_of_key_length.
Qed.

(** X7. Every token of [_extract_etag_like] is a size token, which starts
    with ["size:"], or a string of 32 characters; none is empty, so that
    the test [if et] of [_token_for_path] rejects no token. *)
Theorem extract_etag_like_shape (info : info_dict) (t : string) :
  _extract_etag_like info = Some t →
  t ≠ ""
  ∧ (PyStr.startswith "size:" t = true ∨ String.length t = 32%nat).
Proof.
  only_needed. unfold _extract_etag_like.
  destruct (etag_loop info etag_keys) as [t'|] eqn:Hl.
  - intros [= <-]. apply etag_loop_length in Hl.
    split; [by destruct t'|by right].
  - intros H.
    assert (∃ r, t = "size:" ++ r) as [r ->].
    { repeat case_match; simplify_eq; eauto. }
    split; [done|]. left. apply prefix_app.
Qed.

Lemma etag_loop_first info keys key t :
  key ∈ keys → etag_of_key info key = Some t →
  (∀ k, k ∈ keys → k ≠ key → truthy (info_get info k) = false) →
  etag_loop info keys = Some t.
Proof.
  only_needed. intros Hin Hkey Hothers.
  induction keys as [|k keys IH]; [by apply elem_of_nil in Hin|].
  cbn [etag_loop]. destruct (decide (k = key)) as [->|Hne].
  - by rewrite Hkey.
  - unfold etag_of_key at 1. rewrite (Hothers k) by set_solver. cbn [negb].
    apply IH; [set_solver|]. intros k' Hk'. apply Hothers. set_solver.
Qed.

(** X8. A digest of 32 hexadecimal digits under one of the digest keys,
    with nothing under the other digest keys, is returned in lower case,
    and is again a string of 32 hexadecimal digits. *)
Theorem extract_etag_like_hex (info : info_dict) (key v : string) :
  key ∈ etag_keys → info_get info key = MStr v → _is_hex32 v = true →
  (∀ k, k ∈ etag_keys → k ≠ key → truthy (info_get info k) = false) →
  _extract_etag_like info = Some (PyStr.lower v)
  ∧ _is_hex32 (PyStr.lower v) = true.
Proof.
  only_needed. intros Hkey Hv Hhex Hothers.
  split; [|by apply lower_hex32].
  unfold _extract_etag_like.
  rewrite (etag_loop_first info etag_keys key (PyStr.lower v)); try done.
  unfold etag_of_key. rewrite Hv. cbn [truthy meta_str]. rewrite Hhex.
  by destruct v.
Qed.

(** X9. Without a digest under the digest keys, a non-zero integer [size]
    gives the token ["size:<n>"]; a zero [size] counts as absent, and with
    nothing under ["Size"] and ["length"] there is no token at all, so
    that an empty file is tokenised by its content. *)
Theorem extract_etag_like_size_fallback (info : info_dict) (n : Z) :
  (∀ k, k ∈ etag_keys → truthy (info_get info k) = false) →
  info_get info "size" = MInt n →
  (n ≠ 0 → _extract_etag_like info = Some ("size:" ++ PyStr.of_Z n))
  ∧ (n = 0 → truthy (info_get info "Size") = false →
     info_get info "length" = MNone → _extract_etag_like info = None).
Proof.
  only_needed. intros Hno Hsize.
  assert (Hloop : etag_loop info etag_keys = None).
  { assert (∀ keys, (∀ k, k ∈ keys → truthy (info_get info k) = false) →
                    etag_loop info keys = None) as Hgen.
    { clear. intros keys. induction keys as [|k keys IH]; [done|].
      intros H. cbn [etag_loop]. unfold etag_of_key at 1.
      rewrite (H k) by set_solver. cbn [negb]. apply IH.
      intros k' Hk'. apply H. set_solver. }
    by apply Hgen. }
  unfold _extract_etag_like. rewrite Hloop, Hsize. split.
  - intros Hn. unfold py_or. cbn [truthy].
    destruct (Z.eqb_spec n 0) as [|_]; [done|]. cbn [negb truthy].
    destruct (Z.eqb_spec n 0) as [|_]; [done|]. done.
  - intros -> HS Hl. unfold py_or. cbn [truthy Z.eqb negb].
    by rewrite HS, Hl.
Qed.

(** ** [_stream_sha256_of_path] and the size of the chunks *)

Lemma bytes_app (s t : string) :
  PyStr.bytes (s ++ t) = (PyStr.bytes s ++ PyStr.bytes t)%list.
Proof.
  only_needed. unfold PyStr.bytes. induction s as [|c s IH]; [done|].
  rewrite str_app_cons. cbn. by rewrite IH.
Qed.

Lemma take_drop (n : nat) (s : string) : PyStr.take n s ++ PyStr.drop n s = s.
Proof.
  only_needed. revert s. induction n as [|n IH]; intros [|c s]; try done.
  cbn [PyStr.take PyStr.drop]. by rewrite str_app_cons, IH.
Qed.

Lemma drop_length (n : nat) (s : string) :
  String.length (PyStr.drop n s) = (String.length s - n)%nat.
Proof.
  only_needed. revert s. induction n as [|n IH]; intros [|c s]; try done.
  cbn [PyStr.drop String.length]. by rewrite IH.
Qed.

(** With chunks that are not empty, the loop ends and has given the hash
    object the bytes of the file, all of them and in order. *)
Lemma read_loop_all (chunk_size : Z) (fuel : nat) (rest : string) (h : list Z) :
  chunk_size ≠ 0 → (String.length rest < fuel)%nat →
  read_loop fuel chunk_size rest h = Some (h ++ PyStr.bytes rest)%list.
Proof.
  only_needed. intros Hk. revert rest h.
  induction fuel as [|fuel IH]; intros rest h Hf; [lia|].
  cbn [read_loop]. unfold fh_read.
  destruct rest as [|c rest].
  { destruct (chunk_size <? 0); [|destruct (Z.to_nat chunk_size)];
      cbn; by rewrite app_nil_r. }
  destruct (Z.ltb_spec chunk_size 0) as [Hneg|Hpos].
  - cbn [String.eqb]. destruct fuel as [|fuel]; [cbn in Hf; lia|].
    cbn [read_loop fh_read]. unfold fh_read.
    destruct (chunk_size <? 0); [done|]. by destruct (Z.to_nat chunk_size).
  - destruct (Z.to_nat chunk_size) as [|n] eqn:Hn; [lia|].
    cbn [PyStr.take PyStr.drop String.eqb].
    rewrite IH.
    + rewrite <- app_assoc, <- bytes_app, str_app_cons, take_drop. done.
    + rewrite drop_length. cbn in Hf. lia.
Qed.

(** X10. [_stream_sha256_of_path] returns the SHA-256 digest of the
    content of the file whatever the size of the chunks it reads, for a
    positive size and for [-1], which reads the file at once; with
    [chunk_size=0] the first read is empty and the function returns the
    digest of the empty input. *)
Theorem stream_sha256_chunk_size_independent (st : store) (p content : string)
    (chunk_size : Z) (fuel : nat) :
  fs_read be st p = Ok content → (String.length content < fuel)%nat →
  (0 < chunk_size ∨ chunk_size = -1 →
   _stream_sha256_by_chunks st p chunk_size fuel
   = Ok (Some (Hashlib.sha256_hex (PyStr.bytes content))))
  ∧ _stream_sha256_by_chunks st p 0 fuel = Ok (Some (Hashlib.sha256_hex []))
  ∧ _stream_sha256_of_path be st p
    = Ok (Hashlib.sha256_hex (PyStr.bytes content)).
Proof.
  intros Hr Hf. unfold _stream_sha256_by_chunks, _stream_sha256_of_path.
  rewrite Hr. cbn [mbind result_bind]. split_and!.
  - intros Hk. rewrite read_loop_all; [done|lia|done].
  - destruct fuel as [|fuel]; [lia|]. cbn [read_loop fh_read].
    unfold fh_read. cbn. by destruct content.
  - done.
Qed.

(** ** [_retry] *)

Lemma retry_go_raise {A} (fn : unit → result A) (n : nat) (e : exn) :
  fn () = Raise e → _retry_go fn n (Some e) = Raise e.
Proof.
  only_needed. intros H. induction n as [|n IH]; [done|].
  cbn [_retry_go]. by rewrite H.
Qed.

Lemma retry_succ {A} (fn : unit → result A) (n : nat) :
  _retry fn (S n) = fn ().
Proof.
  only_needed. unfold _retry. cbn [_retry_go].
  destruct (fn ()) as [a|e] eqn:Hfn; [done|]. by apply retry_go_raise.
Qed.

(** X11. With no attempt allowed, [_retry] does not call the function and
    raises the [TypeError] of [raise None], and so does
    [compute_data_fingerprint] on any root; with one attempt or more, on a
    function whose outcome does not change between the attempts, it
    returns what the function returns and raises what it raises. *)
Theorem retry_outcome {A} (fn : unit → result A) (attempts : nat) :
  _retry fn attempts
  = match attempts with
    | O => Raise (TypeError "exceptions must derive from BaseException")
    | S _ => fn ()
    end
  ∧ ∀ (b : backend) (st : store) (data_root : string) (prefer_etag : bool),
      data_root ≠ "" →
      compute_data_fingerprint b st data_root prefer_etag 0
      = Raise (TypeError "exceptions must derive from BaseException").
Proof.
  only_needed. split.
  - destruct attempts as [|n]; [done|]. apply retry_succ.
  - intros b st data_root prefer_etag Hne.
    unfold compute_data_fingerprint, fingerprint_concat.
    by destruct (String.eqb_spec data_root "").
Qed.

(** ** [compute_data_fingerprint]: the errors and the metadata *)

Section NoFiles.

Variable b : backend.
Hypothesis arrange_perm : ∀ l, arrange b l ≡ₚ l.

(** X12. On a root under which the store holds nothing, with a listing
    that does not fail, [compute_data_fingerprint] raises the error that
    names the root in its absolute form. *)
Theorem fingerprint_no_files (st : store) (data_root : string)
    (prefer_etag : bool) (n : nat) :
  data_root ≠ "" →
  let uri := _to_abs_file_uri data_root in
  let root := PyStr.rstrip_char "/" (url_to_path uri) in
  fails b OpFind root = false →
  (∀ p, under root p = true → st !! p = None) →
  compute_data_fingerprint b st data_root prefer_etag (S n)
  = Raise (RuntimeError ("No files discovered under DATA_ROOT=" ++ uri)).
Proof using arrange_perm.
  only_needed_but arrange_perm.
  intros Hne uri root Hf Hempty.
  unfold compute_data_fingerprint, fingerprint_concat.
  destruct (String.eqb_spec data_root "") as [|_]; [done|].
  fold uri root.
  assert (Hl : _list_files b st root = Ok []).
  { unfold _list_files, fs_find, guard. rewrite Hf.
    assert (Hnil : map_to_list st ≫= find_item b root = []).
    { apply bind_nil. intros [k nd] Hk. apply elem_of_map_to_list in Hk.
      unfold find_item. cbn [fst snd].
      assert (Hu : under root k = false).
      { apply not_true_is_false. intros Hu. by rewrite (Hempty k Hu) in Hk. }
      destruct nd; [by rewrite Hu|].
      unfold under in Hu. apply orb_false_elim in Hu as [_ ->].
      by rewrite andb_false_r. }
    rewrite Hnil.
    assert (Harr : arrange b [] = []).
    { apply Permutation_nil_r, arrange_perm. }
    by rewrite Harr. }
  rewrite (retry_succ (fun _ => _list_files b st root) n).
  by rewrite Hl.
Qed.

End NoFiles.

Section WithoutMetadata.

Variables b1 b2 : backend.
Hypothesis same_fails : ∀ op p, op ≠ OpInfo → fails b1 op p = fails b2 op p.
Hypothesis same_arrange : ∀ l, arrange b1 l = arrange b2 l.
Hypothesis same_placeholders : lists_placeholders b1 = lists_placeholders b2.

Variable st : store.

Lemma fs_find_without_info root : fs_find b1 st root = fs_find b2 st root.
Proof using same_fails same_arrange same_placeholders.
  unfold fs_find, guard, find_item.
  by rewrite same_fails, same_arrange, same_placeholders.
Qed.

Lemma list_files_without_info root :
  _list_files b1 st root = _list_files b2 st root.
Proof using same_fails same_arrange same_placeholders.
  unfold _list_files. rewrite fs_find_without_info.
  destruct (fs_find b2 st root); [done|].
  assert (Hls : fs_ls b1 st root = fs_ls b2 st root).
  { unfold fs_ls, guard. by rewrite same_fails, same_arrange. }
  rewrite Hls. destruct (fs_ls b2 st root) as [entries|].
  - do 3 f_equal. unfold ls_files. apply list_bind_ext; [|done].
    intros ent. by rewrite fs_find_without_info.
  - unfold fs_exists, guard. by rewrite same_fails.
Qed.

(** X13. With [prefer_etag=False] the call of [fs.info] plays no part:
    two backends that differ only in the metadata they report and in
    whether that call fails give the same fingerprint, or the same
    exception. *)
Theorem fingerprint_ignores_metadata_without_prefer_etag (data_root : string)
    (attempts : nat) :
  compute_data_fingerprint b1 st data_root false attempts
  = compute_data_fingerprint b2 st data_root false attempts.
Proof using same_fails same_arrange same_placeholders.
  unfold compute_data_fingerprint, fingerprint_concat.
  destruct (String.eqb data_root ""); [done|].
  set (root := PyStr.rstrip_char "/" _).
  rewrite (retry_ext (fun _ => _list_files b1 st root)
                     (fun _ => _list_files b2 st root))
    by (intros _; apply list_files_without_info).
  destruct (_retry _ attempts) as [files|]; [|done].
  cbn [mbind result_bind]. destruct files as [|p0 files]; [done|].
  rewrite (mapM_result_ext
             (fun p => _retry (fun _ => _token_for_path b1 st false p) attempts)
             (fun p => _retry (fun _ => _token_for_path b2 st false p) attempts));
    [done|].
  intros p _. apply retry_ext. intros _.
  unfold _token_for_path, metadata_token, _stream_sha256_of_path, fs_read, guard.
  by rewrite same_fails.
Qed.

End WithoutMetadata.

(** ** [canonical_json_str]: the order of the keys *)

#[local] Instance key_le_trans : Transitive key_le.
Proof. intros a b c. unfold key_le. apply transitivity. Qed.

#[local] Instance key_le_total : Total key_le.
Proof. intros a b. unfold key_le. apply total, _. Qed.

Lemma NoDup_keys_functional {V} (l : list (string * V)) k v1 v2 :
  NoDup l.*1 → (k, v1) ∈ l → (k, v2) ∈ l → v1 = v2.
Proof.
  only_needed. induction l as [|[k' v'] l IH]; [by intros _ ?%elem_of_nil|].
  rewrite fmap_cons, NoDup_cons, !elem_of_cons. cbn [fst].
  intros [Hk Hl] [H1|H1] [H2|H2]; simplify_eq; try done.
  - destruct Hk. apply list_elem_of_fmap. by exists (k', v2).
  - destruct Hk. apply list_elem_of_fmap. by exists (k', v1).
  - by apply IH.
Qed.

(** Members with distinct keys have one sorted order. *)
Lemma sort_members_Permutation (l1 l2 : list (string * string)) :
  NoDup l1.*1 → l1 ≡ₚ l2 → sort_members l1 = sort_members l2.
Proof.
  only_needed. intros Hnd Hp. unfold sort_members.
  apply (Sorted_unique_strong key_le); try apply Sorted_merge_sort, _.
  - intros [k1 v1] [k2 v2]. rewrite !merge_sort_Permutation, <- Hp.
    unfold key_le. cbn [fst]. intros H1 H2 Hle1 Hle2.
    assert (k1 = k2) as -> by (by apply (anti_symm String.le)).
    f_equal. by eapply NoDup_keys_functional.
  - by rewrite !merge_sort_Permutation.
Qed.

Lemma json_dumps_at_dict indent item_sep key_sep depth d :
  d ≠ [] →
  json_dumps_at indent item_sep key_sep depth (VDict d)
  = (let break n :=
       match indent with
       | Some k => PyStr.newline ++ PyStr.spaces (k * n)
       | None => ""
       end in
     "{" ++ break (S depth)
     ++ PyStr.join (item_sep ++ break (S depth))
          (List.map (fun kv => json_string (fst kv) ++ key_sep ++ snd kv)
             (sort_members
                (List.map (fun kv =>
                   (fst kv,
                    json_dumps_at indent item_sep key_sep (S depth) (snd kv)))
                   d)))
     ++ break depth ++ "}").
Proof. only_needed_but float_repr. by destruct d. Qed.

Lemma json_dumps_at_key_order indent item_sep key_sep depth d1 d2 :
  NoDup d1.*1 → d1 ≡ₚ d2 →
  json_dumps_at indent item_sep key_sep depth (VDict d1)
  = json_dumps_at indent item_sep key_sep depth (VDict d2).
Proof.
  only_needed_but float_repr. intros Hnd Hp.
  destruct d1 as [|x d1].
  { apply Permutation_nil_l in Hp. by subst. }
  destruct d2 as [|y d2].
  { by apply Permutation_nil_r in Hp. }
  rewrite !json_dumps_at_dict by done. cbv zeta. do 5 f_equal.
  apply sort_members_Permutation.
  - assert (Hkeys : ∀ (g : pyval → string) (l : list (string * pyval)),
              (List.map (fun kv => (fst kv, g (snd kv))) l).*1 = l.*1).
    { intros g l. induction l as [|[k v] l IH]; [done|]. cbn. by rewrite IH. }
    by rewrite Hkeys.
  - by apply Permutation_map.
Qed.

(** X14. The two serializations of a dictionary, the canonical one and
    the indented one of the snapshot, do not depend on the order in which
    its keys were inserted. *)
Theorem canonical_json_key_order (d1 d2 : list (string * pyval)) :
  NoDup d1.*1 → d1 ≡ₚ d2 →
  canonical_json_str (VDict d1) = canonical_json_str (VDict d2)
  ∧ json_dumps_indent2 (VDict d1) = json_dumps_indent2 (VDict d2).
Proof.
  only_needed_but float_repr. intros Hnd Hp.
  split; by apply json_dumps_at_key_order.
Qed.

(** ** [build_canonical_config]: keys and values *)

Lemma filter_ext_Forall {A} (P Q : A → Prop) `{∀ x, Decision (P x)}
    `{∀ x, Decision (Q x)} (l : list A) :
  Forall (fun x => P x ↔ Q x) l → filter P l = filter Q l.
Proof.
  only_needed. induction 1 as [|x l Hx _ IH]; [done|].
  rewrite !filter_cons, IH.
  destruct (decide (P x)), (decide (Q x)); naive_solver.
Qed.

Lemma build_canonical_config_keys (cfg : gmap string pyval) :
  (build_canonical_config cfg).*1
  = filter (fun k => is_Some (cfg !! k)) IDENTITY_VARS.
Proof.
  only_needed_but float_repr. unfold build_canonical_config.
  induction IDENTITY_VARS as [|k ks IH]; [done|].
  rewrite filter_cons. cbn [omap list_omap].
  destruct (cfg !! k) as [v|] eqn:Hk; cbn [fmap option_fmap option_map].
  - rewrite decide_True by done. cbn. f_equal. exact IH.
  - rewrite decide_False by (by intros [? ?]). exact IH.
Qed.

(** X15. On a configuration with the fields of [PlatformConfig], the
    canonical configuration has the names of [IDENTITY_VARS] in their
    order, except [TEST_SIZE] and [RETRAIN_FROM_MODEL_URI], which
    [PlatformConfig] does not declare: 37 keys. *)
Theorem build_canonical_config_fields (cfg : gmap string pyval) :
  (∀ k, is_Some (cfg !! k) ↔ k ∈ PlatformConfig_fields) →
  (build_canonical_config cfg).*1
  = filter (fun k => k ≠ "TEST_SIZE" ∧ k ≠ "RETRAIN_FROM_MODEL_URI")
           IDENTITY_VARS
  ∧ length (build_canonical_config cfg) = 37%nat.
Proof.
  only_needed_but float_repr. intros Hdom.
  assert (Hk : (build_canonical_config cfg).*1
               = filter (fun k => k ≠ "TEST_SIZE"
                                  ∧ k ≠ "RETRAIN_FROM_MODEL_URI")
                        IDENTITY_VARS).
  { rewrite build_canonical_config_keys.
    rewrite (filter_ext_Forall _ (fun k => k ∈ PlatformConfig_fields)).
    2:{ apply Forall_forall. intros k _. apply Hdom. }
    apply filter_ext_Forall.
    apply (bool_decide_unpack _
             (dec := Forall_dec (fun k => k ∈ PlatformConfig_fields
                       ↔ k ≠ "TEST_SIZE" ∧ k ≠ "RETRAIN_FROM_MODEL_URI") _)).
    by vm_compute. }
  split; [exact Hk|].
  rewrite <- (length_fmap fst), Hk. by vm_compute.
Qed.

Lemma build_canonical_config_values (cfg1 cfg2 : gmap string pyval) :
  (∀ k, k ∈ IDENTITY_VARS →
        canonical_value <$> cfg1 !! k = canonical_value <$> cfg2 !! k) →
  build_canonical_config cfg1 = build_canonical_config cfg2.
Proof.
  only_needed_but float_repr. intros H. unfold build_canonical_config.
  induction IDENTITY_VARS as [|k ks IH]; [done|].
  cbn [omap list_omap].
  pose proof (H k ltac:(set_solver)) as Hk.
  specialize (IH ltac:(intros k' Hk'; apply H; set_solver)).
  destruct (cfg1 !! k), (cfg2 !! k); cbn in Hk; simplify_eq;
    cbn [fmap option_fmap option_map]; rewrite ?fmap_cons; cbn [fst snd];
    by rewrite ?IH, ?Hk.
Qed.

(** X16. An attribute that is the empty string hashes like the attribute
    being [None]: same canonical JSON, same full hash, same run id. *)
Theorem empty_string_hashes_like_none (environ : gmap string string)
    (cfg : gmap string pyval) (k : string) (fp : option string) :
  k ≠ "STRICT_DATA_FINGERPRINT" →
  canonical_json_and_hash environ (<[k := VStr ""]> cfg) fp
  = canonical_json_and_hash environ (<[k := VNone]> cfg) fp.
Proof.
  only_needed_but float_repr. intros Hk. unfold canonical_json_and_hash, getattr.
  rewrite !lookup_insert_ne by done.
  rewrite (build_canonical_config_values (<[k := VStr ""]> cfg)
                                         (<[k := VNone]> cfg)); [done|].
  intros k' _. destruct (decide (k = k')) as [->|Hne].
  - by rewrite !lookup_insert_eq.
  - by rewrite !lookup_insert_ne.
Qed.

(** X17. The canonical JSON, the full hash and the run id do not depend
    on the order of the elements of a list-valued attribute, on their
    repetitions, or on whether they are numbers or the strings that print
    them: only on the set of the strings [str(x)]. *)
Theorem list_field_order_insensitive (environ : gmap string string)
    (cfg : gmap string pyval) (k : string) (l1 l2 : list pyval)
    (fp : option string) :
  (∀ x, x ∈ py_str <$> l1 ↔ x ∈ py_str <$> l2) →
  canonical_json_and_hash environ (<[k := VList l1]> cfg) fp
  = canonical_json_and_hash environ (<[k := VList l2]> cfg) fp.
Proof.
  only_needed_but2 float_repr py_repr.
  intros H. unfold canonical_json_and_hash, getattr.
  rewrite (build_canonical_config_values (<[k := VList l1]> cfg)
                                         (<[k := VList l2]> cfg)).
  2:{ intros k' _. destruct (decide (k = k')) as [->|Hne].
      - rewrite !lookup_insert_eq. cbn. do 3 f_equal.
        by apply canonical_list_ext.
      - by rewrite !lookup_insert_ne. }
  destruct (decide (k = "STRICT_DATA_FINGERPRINT")) as [->|Hne].
  - rewrite !lookup_insert_eq. cbn [mbind result_bind include_flag py_truthy].
    assert (Hempty : match l1 with [] => false | _ => true end
                     = match l2 with [] => false | _ => true end).
    { destruct l1 as [|a l1], l2 as [|c l2]; try done.
      - specialize (H (py_str c)). cbn in H. set_solver.
      - specialize (H (py_str a)). cbn in H. set_solver. }
    by rewrite Hempty.
  - by rewrite !lookup_insert_ne.
Qed.

(** ** [canonicalize_env] *)

Lemma norm_scalar_list (v : option string) (l : list pyval) :
  _norm_scalar v = VList l →
  ∃ pieces, l = VStr <$> sorted (dict_fromkeys (filter (fun i => i ≠ "") pieces)).
Proof.
  only_needed. unfold _norm_scalar. repeat case_match; try done.
  intros [= <-]. eauto.
Qed.

(** X18. [canonicalize_env] keeps the keys of the map, in their order, and
    every list among its values is a list of strings, non-empty, distinct
    and in sorted order. *)
Theorem canonicalize_env_lists (env_map : list (string * pyval)) :
  (canonicalize_env env_map).*1 = env_map.*1
  ∧ ∀ k l, (k, VList l) ∈ canonicalize_env env_map →
      ∃ items, l = VStr <$> items ∧ Sorted String.le items ∧ NoDup items
               ∧ Forall (fun x => x ≠ "") items.
Proof.
  only_needed. split.
  - unfold canonicalize_env. rewrite <- list_fmap_compose.
    by apply list_fmap_ext.
  - intros k l. unfold canonicalize_env. rewrite list_elem_of_fmap.
    intros ([k' v] & [= -> Hv] & _). cbn [snd] in Hv.
    assert (∃ pieces, l = VStr <$> sorted (dict_fromkeys
                             (filter (fun i => i ≠ "") pieces))) as [pieces ->].
    { unfold canonicalize_env_value in Hv.
      destruct v; try done; try (by eapply norm_scalar_list).
      injection Hv as ->. eauto. }
    eexists. split; [done|].
    destruct (canonical_list_spec (filter (fun i => i ≠ "") pieces))
      as (H1 & H2 & H3).
    split_and!; [done|done|].
    apply Forall_forall. intros x. rewrite H3, list_elem_of_filter. tauto.
Qed.

(** ** [_atomic_write_json] and [persist_config_snapshot]: what is touched *)

(** X19. [_atomic_write_json] touches the final object, the temporary
    one and the directories above them, which [makedirs] may create: every
    other object of the store is as it was, and so are the environment
    and the log. *)
Theorem atomic_write_json_frame (obj : pyval) (uri q : string) (w : world) :
  q ≠ url_to_path (uri ++ ".tmp") →
  q ≠ dirname (url_to_path uri) → under q (url_to_path uri) = false →
  let out := _atomic_write_json obj uri w in
  w_store out.2 !! q = w_store w !! q
  ∧ w_environ out.2 = w_environ w ∧ w_log out.2 = w_log w.
Proof.
  intros Hq2 Hq3 Hnot out. subst out.
  assert (Hq1 : q ≠ url_to_path uri).
  { intros ->. unfold under in Hnot. by rewrite String.eqb_refl in Hnot. }
  pose proof (not_eq_sym Hq1) as Hq1'. pose proof (not_eq_sym Hq2) as Hq2'.
  pose proof (not_eq_sym Hq3) as Hq3'.
  unfold _atomic_write_json. run_io.
  unfold fs_makedirs, fs_write, fs_rename, fs_copy, fs_rm, guard.
  split_backend_calls; cbn [w_store w_environ w_log]; by simplify_map_eq.
Qed.

(** X20. With [redact_keys] given, [persist_config_snapshot] redacts the
    keys of that list and no other: the variable [REDACTED_ENV_KEYS] is not
    read.  A call that returns has written the snapshot, returns its uri
    and has logged one line; a call that raises has logged nothing; and
    the environment is never changed. *)
Theorem persist_config_snapshot_redact_keys (artifact_root : string)
    (canonical_cfg : pyval) (full_hash run_id : string)
    (data_fingerprint : option string) (keys : list string) (w : world) :
  let environ := w_environ w in
  let env := env_snapshot environ (Some keys) in
  let snapshot :=
    snapshot_of environ canonical_cfg full_hash run_id data_fingerprint
                (Some keys) in
  let out := persist_config_snapshot artifact_root canonical_cfg full_hash
               run_id data_fingerprint (Some keys) w in
  (∀ k v, environ !! k = Some v →
     dict_get env k
     = VStr (if bool_decide (k ∈ keys) then "<REDACTED>" else v))
  ∧ (∀ u, out.1 = Ok u →
       u = config_snapshot_uri artifact_root
       ∧ w_store out.2 !! url_to_path u
         = Some (File (json_dumps_indent2 snapshot))
       ∧ w_log out.2
         = (w_log w
            ++ [(INFO, ("Persisted config snapshot to " ++ u)%string)])%list)
  ∧ (∀ e, out.1 = Raise e → w_log out.2 = w_log w)
  ∧ w_environ out.2 = w_environ w.
Proof.
  intros environ env snapshot out.
  split.
  { intros k v Hk. unfold env, env_snapshot.
    rewrite (dict_get_tabulate (fun k =>
      VStr (if bool_decide (k ∈ redact_set environ (Some keys))
            then "<REDACTED>" else default "" (environ !! k)))).
    - by rewrite Hk.
    - rewrite sorted_Permutation. apply environ_keys_spec. by eexists. }
  subst out snapshot env environ.
  unfold persist_config_snapshot, mbind, M_bind, get_environ, log_msg, mret,
    M_ret.
  destruct (_atomic_write_json _ _ w) as [[u'|e] w1] eqn:Hw;
    apply atomic_write_outcome in Hw as (Henv & Hlog & Hok & _);
    cbn [fst snd w_store w_log w_environ].
  - destruct (Hok u' eq_refl) as [-> Hfile].
    split_and!; [|done|done].
    intros u [= <-]. by rewrite Hlog.
  - split_and!; [done| |done].
    by intros e' _.
Qed.

(** ** [load_from_env] *)

Lemma parsed_fields_ext (env1 env2 : gmap string string) :
  (∀ k, k ∈ PlatformConfig_fields → env1 !! k = env2 !! k) →
  parsed_fields env1 = parsed_fields env2.
Proof.
  only_needed_but float_of_str. intros H. unfold parsed_fields.
  apply list_fmap_ext. intros i k Hk. f_equal. f_equal. apply H.
  by eapply list_elem_of_lookup_2.
Qed.

Lemma load_from_env_world os_env w :
  w_store (load_from_env os_env w).2 = w_store w
  ∧ w_environ (load_from_env os_env w).2 = w_environ w.
Proof.
  unfold load_from_env. run_io.
  repeat match goal with
         | |- context [match ?r with Ok _ => _ | Raise _ => _ end] =>
             destruct r
         end; done.
Qed.

(** X21. [load_from_env] reads the declared fields of [PlatformConfig] and
    nothing else of the mapping it is given; an empty mapping counts as no
    mapping, so that the process environment is read; and the call
    changes neither the store nor the environment. *)
Theorem load_from_env_reads_declared_fields (env1 env2 : gmap string string)
    (w : world) :
  env1 ≠ ∅ → env2 ≠ ∅ →
  (∀ k, k ∈ PlatformConfig_fields → env1 !! k = env2 !! k) →
  load_from_env (Some env1) w = load_from_env (Some env2) w
  ∧ load_from_env (Some ∅) w = load_from_env None w
  ∧ w_store (load_from_env (Some env1) w).2 = w_store w
  ∧ w_environ (load_from_env (Some env1) w).2 = w_environ w.
Proof.
  intros H1 H2 H. split_and!.
  - unfold load_from_env. rewrite !bool_decide_eq_false_2 by done.
    by rewrite (parsed_fields_ext env1 env2 H).
  - unfold load_from_env. by rewrite bool_decide_eq_true_2.
  - apply load_from_env_world.
  - apply load_from_env_world.
Qed.

(** ** [bootstrap_and_hash] *)

Lemma persist_config_snapshot_world root cfg fh rid fp keys w :
  let out := persist_config_snapshot root cfg fh rid fp keys w in
  w_environ out.2 = w_environ w
  ∧ (∀ u, out.1 = Ok u →
       ∃ data, w_store out.2 !! url_to_path (config_snapshot_uri root)
               = Some (File data)).
Proof.
  intros out. subst out.
  unfold persist_config_snapshot, mbind, M_bind, get_environ, log_msg, mret,
    M_ret.
  destruct (_atomic_write_json _ _ w) as [[u'|e] w1] eqn:Hw;
    apply atomic_write_outcome in Hw as (Henv & Hlog & Hok & _);
    cbn [fst snd w_store w_log w_environ]; split; try done.
  intros u _. destruct (Hok u' eq_refl) as [_ Hfile]. eauto.
Qed.

Lemma canonical_json_and_hash_ok environ cfg fp cj fh rid :
  canonical_json_and_hash environ cfg fp = Ok (cj, fh, rid) →
  cj = canonical_json_str (VDict (build_canonical_config cfg))
  ∧ rid = PyStr.take 12 fh ∧ String.length fh = 64%nat.
Proof.
  only_needed_but float_repr.
  unfold canonical_json_and_hash, compute_full_hash_and_run_id.
  destruct (getattr cfg "STRICT_DATA_FINGERPRINT") as [strict|];
    cbn [mbind result_bind]; [|done].
  match goal with
  | |- context [mbind _ (mbind _ ?c)] =>
      destruct c as [combined|]; cbn [mbind result_bind]; [|done]
  end.
  cbn [fst snd]. intros [= <- <- <-].
  split_and!; [done|done|apply sha256_hex_length].
Qed.

Lemma compute_data_fingerprint_length b st root prefer attempts fp :
  compute_data_fingerprint b st root prefer attempts = Ok fp →
  String.length fp = 64%nat.
Proof.
  only_needed_but abspath. unfold compute_data_fingerprint.
  destruct (fingerprint_concat _ _ _ _ _); cbn [mbind result_bind]; [|done].
  intros [= <-]. apply sha256_hex_length.
Qed.

(** X22. A [bootstrap_and_hash] that returns has set [FULL_CONFIG_HASH],
    [RUN_ID] and [ARTIFACT_ROOT] in the environment to what it returns and
    nothing else, and has left a snapshot file under the artifact root;
    the run id is the first 12 of the 64 characters of the hash, the
    fingerprint has 64 characters, and the artifact root is the pipeline
    root without its trailing slashes, ["/ml8s_training_runs/"] and the
    run id.  A [bootstrap_and_hash] that raises leaves the environment as
    it was. *)
Theorem bootstrap_and_hash_outcome (w : world) :
  match bootstrap_and_hash w with
  | (Ok b, w') =>
      w_environ w'
      = <["ARTIFACT_ROOT" := boot_artifact_root b]>
          (<["RUN_ID" := boot_run_id b]>
             (<["FULL_CONFIG_HASH" := boot_full_config_hash b]> (w_environ w)))
      ∧ boot_run_id b = PyStr.take 12 (boot_full_config_hash b)
      ∧ String.length (boot_full_config_hash b) = 64%nat
      ∧ String.length (boot_data_fingerprint b) = 64%nat
      ∧ (∃ pipeline_root,
           pipeline_root ≠ ""
           ∧ boot_artifact_root b
             = PyStr.rstrip_char "/" pipeline_root
               ++ "/ml8s_training_runs/" ++ boot_run_id b)
      ∧ (∃ data,
           w_store w' !! url_to_path (config_snapshot_uri (boot_artifact_root b))
           = Some (File data))
      ∧ json_loads (boot_canonical_json b) = Ok (boot_canonical_config b)
  | (Raise _, w') => w_environ w' = w_environ w
  end.
Proof.
  unfold bootstrap_and_hash.
  unfold mbind at 1, M_bind at 1.
  pose proof (load_from_env_world None w) as [_ Hload].
  destruct (load_from_env None w) as [[cfg|e] w1]; cbn [snd] in Hload; [|done].
  unfold mbind, M_bind, lift, query, get_environ, set_environ, log_msg, mret,
    M_ret.
  cbv beta.
  destruct (absolutize cfg "DATA_ROOT") as [cfg2|]; cbn beta iota; [|done].
  destruct (absolutize cfg2 "PIPELINE_ROOT_URI") as [cfg3|]; cbn beta iota;
    [|done].
  destruct (getattr_str cfg3 "DATA_ROOT") as [data_root|]; cbn beta iota;
    [|done].
  destruct (compute_data_fingerprint be (w_store w1) data_root true 3)
    as [data_fp|] eqn:Hfp; cbn beta iota; [|done].
  destruct (canonical_json_and_hash (w_environ w1) cfg3 (Some data_fp))
    as [[[cj fh] rid]|] eqn:Hjh; cbn beta iota; [|done].
  destruct (getattr_str cfg3 "PIPELINE_ROOT_URI") as [pr|]; cbn beta iota;
    [|done].
  destruct (derive_artifact_root pr rid) as [root|] eqn:Hroot; cbn beta iota;
    [|done].
  destruct (json_loads cj) as [ccfg|] eqn:Hj; cbn beta iota; [|done].
  pose proof (persist_config_snapshot_world root ccfg fh rid (Some data_fp)
                None w1) as Hp.
  destruct (persist_config_snapshot root ccfg fh rid (Some data_fp) None w1)
    as [[u|e] w2]; cbn [fst snd] in Hp; destruct Hp as [Henv Hfile];
    cbn beta iota; [|congruence].
  cbn [w_environ w_store w_log boot_artifact_root boot_run_id
       boot_full_config_hash boot_data_fingerprint boot_canonical_json
       boot_canonical_config].
  apply canonical_json_and_hash_ok in Hjh as (_ & Hrid & Hlen).
  apply compute_data_fingerprint_length in Hfp.
  split_and!; try done.
  - congruence.
  - exists pr. unfold derive_artifact_root in Hroot.
    destruct (String.eqb_spec pr ""); [done|]. by injection Hroot as <-.
  - eauto.
Qed.

(** ** [flyte_adapter.py] against [pipeline.py] *)

Lemma absolutize_not_local (cfg : gmap string pyval) (name x : string) :
  getattr_str cfg name = Ok x → PyStr.startswith "/" x = false →
  absolutize cfg name = Ok cfg.
Proof.
  only_needed_but abspath. intros Hx Hs. unfold absolutize.
  rewrite Hx. cbn [mbind result_bind]. by rewrite Hs, andb_false_r.
Qed.

(** X23. On a configuration whose data root and pipeline root are not
    local absolute paths, the Flyte task [flyte_bootstrap] computes what
    [bootstrap_and_hash] computes: the same canonical JSON, hash, run id,
    artifact root and fingerprint, and the same store afterwards; or both
    raise the same exception. *)
Theorem flyte_bootstrap_agrees (w w1 : world) (cfg : gmap string pyval)
    (data_root pipeline_root : string) :
  load_from_env None w = (Ok cfg, w1) →
  getattr_str cfg "DATA_ROOT" = Ok data_root →
  getattr_str cfg "PIPELINE_ROOT_URI" = Ok pipeline_root →
  PyStr.startswith "/" data_root = false →
  PyStr.startswith "/" pipeline_root = false →
  match bootstrap_and_hash w, flyte_bootstrap w with
  | (Ok b, wb), (Ok f, wf) =>
      fb_canonical_json f = boot_canonical_json b
      ∧ fb_full_config_hash f = boot_full_config_hash b
      ∧ fb_run_id f = boot_run_id b
      ∧ fb_artifact_root f = boot_artifact_root b
      ∧ fb_data_fingerprint f = boot_data_fingerprint b
      ∧ w_store wf = w_store wb
  | (Raise e1, wb), (Raise e2, wf) => e1 = e2 ∧ w_store wf = w_store wb
  | _, _ => False
  end.
Proof.
  intros Hload Hd Hp Hds Hps.
  unfold bootstrap_and_hash, flyte_bootstrap.
  unfold mbind, M_bind, lift, query, get_environ, set_environ, log_msg, mret,
    M_ret.
  cbv beta. rewrite Hload. cbn beta iota.
  rewrite (absolutize_not_local cfg "DATA_ROOT" data_root Hd Hds).
  cbn beta iota.
  rewrite (absolutize_not_local cfg "PIPELINE_ROOT_URI" pipeline_root Hp Hps).
  cbn beta iota. rewrite Hd, Hp. cbn beta iota.
  destruct (compute_data_fingerprint be (w_store w1) data_root true 3)
    as [data_fp|]; cbn beta iota; [|done].
  destruct (canonical_json_and_hash (w_environ w1) cfg (Some data_fp))
    as [[[cj fh] rid]|]; cbn beta iota; [|done].
  destruct (derive_artifact_root pipeline_root rid) as [root|]; cbn beta iota;
    [|done].
  destruct (json_loads cj) as [ccfg|]; cbn beta iota; [|done].
  destruct (persist_config_snapshot root ccfg fh rid (Some data_fp) None w1)
    as [[u|e] w2]; cbn beta iota; done.
Qed.

(** X24. The Flyte task [flyte_idempotence] and [idempotence_gate] take
    the same decision and leave the same store and the same environment,
    whatever the check answers or raises: they differ in what they log. *)
Theorem flyte_idempotence_agrees
    (check : string → string → string → M (bool * string))
    (root eh ef : string) (force : bool) (w : world) :
  let local := idempotence_gate check root eh ef force w in
  let flyte := flyte_idempotence check root eh ef force w in
  flyte.1 = local.1
  ∧ w_store flyte.2 = w_store local.2
  ∧ w_environ flyte.2 = w_environ local.2.
Proof.
  intros local flyte. subst local flyte.
  unfold idempotence_gate, flyte_idempotence. run_io. cbv beta.
  destruct (check root eh ef w) as [[[ex status]|e] w1]; [|done].
  destruct ex, force; cbn [andb negb fst snd]; try done.
  unfold fs_exists, fs_rm, guard.
  repeat match goal with
         | _ => progress cbn beta iota
         | _ => progress cbn [fst snd w_store w_environ w_log]
         | |- context [if ?c then _ else _] => destruct c
         | |- context [match ?m !! ?k with _ => _ end] => destruct (m !! k)
         end; done.
Qed.

(** ** [contracts.py]: saving and loading a manifest *)

Lemma save_json_returns (failed saved : string) (obj : pyval)
    (uri u : string) (w w' : world) :
  save_json_as failed saved obj uri w = (Ok u, w') →
  u = uri
  ∧ w_store w' !! url_to_path uri = Some (File (json_dumps_indent2 obj)).
Proof.
  pose proof (tmp_path_ne uri) as Hne.
  pose proof (not_eq_sym Hne) as Hne'.
  unfold save_json_as. run_io.
  unfold fs_write, fs_rename, fs_copy, fs_rm, guard.
  split_backend_calls; intros [= <- <-]; cbn [w_store]; by simplify_map_eq.
Qed.


(** X26. A manifest that was saved is the one that is loaded: after a
    [save_json] that returned, [load_json] on the uri it returned reads
    the serialization back and hands the parsed dictionary to
    [parse_obj], for a [json.loads] that inverts [json.dumps] on the
    dictionary and an [open] that does not fail. *)
Theorem save_then_load_json {A} (failed saved what : string)
    (parse : pyval → result A) (obj : pyval) (uri u : string) (w w' : world) :
  json_loads (json_dumps_indent2 obj) = Ok obj →
  fails be OpOpen (url_to_path uri) = false →
  save_json_as failed saved obj uri w = (Ok u, w') →
  (load_json_as what parse u w').1 = parse obj.
Proof.
  intros Hloads Hopen Hsave.
  apply save_json_returns in Hsave as [-> Hfile].
  unfold load_json_as, mbind, M_bind, query, lift, log_msg, mret, M_ret,
    fs_read, guard.
  rewrite Hopen, Hfile, Hloads. by destruct (parse obj).
Qed.

(** ** The validators of [PlatformConfig] *)







(** X28. Through [load_from_env] the two validators see what
    [_norm_scalar] made of the variable, and a variable that holds one
    integer (one that [int] converts) is an [int] or a [bool] by then,
    neither a list nor a string: a single lag period or rolling window is
    rejected. *)
Theorem single_integer_period_rejected (raw : string) :
  (String.length raw ≤ max_str_digits)%nat →
  match_int (PyStr.strip raw) = true →
  parse_lag_periods (_norm_scalar (Some raw))
  = ValueError "LAG_PERIODS must be comma-separated ints or list"
  ∧ parse_rolling_windows (_norm_scalar (Some raw))
    = ValueError "ROLLING_WINDOWS must be comma-separated ints or list".
Proof.
  only_needed. intros _ Hm. unfold _norm_scalar.
  destruct (String.eqb_spec (PyStr.strip raw) "") as [He|_].
  { by rewrite He in Hm. }
  rewrite Hm. by case_bool_decide.
Qed.


(** ** [run_pipeline_local]: the marker does not decide the outcome *)


Section StagesThatReturn.

Variable run_preprocessing :
  gmap string pyval → string → string → M (string * list (string * pyval)).
Variable run_train_and_eval :
  string → pyval → string → string → string → string → gmap string pyval →
  M (string * list (string * pyval)).


End StagesThatReturn.

End Runtime.

(** * The properties on the sample worlds *)

Lemma platform_fields_witness :
  canonical_json_and_hash Samples.float_text Samples.no_repr ∅
    Samples.base_cfg (Some "f")
  = canonical_json_and_hash Samples.float_text Samples.no_repr ∅
      (<["LOG_LEVEL" := VStr "DEBUG"]> Samples.base_cfg) (Some "f").
Proof.
  apply platform_fields_do_not_perturb_identity.
  unfold differ_only_in_platform_fields.
  intros k Hk. destruct (decide (k = "LOG_LEVEL")) as [->|Hne].
  - exfalso. apply Hk. split; vm_compute; set_solver.
  - by rewrite lookup_insert_ne.
Defined.

Lemma listing_order_witness :
  compute_data_fingerprint Samples.same_path
    (with_arrange Samples.local_be reverse) Samples.data_store "/data" true 3
  = compute_data_fingerprint Samples.same_path Samples.local_be
      Samples.data_store "/data" true 3.
Proof.
  apply fingerprint_listing_order_independent.
  intros l. apply reverse_Permutation.
Defined.








(** ** The further properties on the sample worlds *)

Lemma norm_scalar_blank_witness :
  _norm_scalar Samples.no_float (Some "   ") = VNone
  ↔ PyStr.all_chars PyStr.is_space "   " = true.
Proof. apply norm_scalar_none_iff_blank. reflexivity. Defined.

Lemma norm_scalar_comma_list_witness :
  ∃ items,
    _norm_scalar Samples.no_float (Some " b, a ,,b ") = VList (VStr <$> items)
    ∧ Sorted String.le items ∧ NoDup items
    ∧ ∀ x, x ∈ items ↔
           x ≠ "" ∧ ∃ piece, piece ∈ PyStr.split "," (PyStr.strip " b, a ,,b ")
                             ∧ PyStr.strip piece = x.
Proof.
  apply (norm_scalar_comma_list Samples.no_float " b, a ,,b "); reflexivity.
Defined.

Lemma norm_scalar_list_order_witness :
  _norm_scalar Samples.no_float (Some "3,1,2,3")
  = _norm_scalar Samples.no_float (Some "1, 2 ,3").
Proof.
  apply norm_scalar_list_order_insensitive; [reflexivity..|].
  intros x. change (x ∈ ["3"; "1"; "2"; "3"] ↔ x ∈ ["1"; "2"; "3"]).
  set_solver.
Defined.

Lemma force_rerun_reading_witness :
  force_rerun_of (<["FORCE_RERUN" := "YES"]> ∅) = true
  ↔ _norm_scalar Samples.no_float
      ((<["FORCE_RERUN" := "YES"]> ∅ : gmap string string) !! "FORCE_RERUN")
    = VBool true.
Proof.
  apply force_rerun_agrees_with_norm_scalar.
  intros v Hv. rewrite lookup_insert_eq in Hv. injection Hv as <-.
  split; reflexivity.
Defined.

Lemma absolute_root_witness :
  _to_abs_file_uri Samples.same_path (_to_abs_file_uri Samples.same_path "/data")
  = _to_abs_file_uri Samples.same_path "/data"
  ∧ compute_data_fingerprint Samples.same_path Samples.local_be
      Samples.data_store (_to_abs_file_uri Samples.same_path "/data") true 3
    = compute_data_fingerprint Samples.same_path Samples.local_be
        Samples.data_store "/data" true 3.
Proof.
  apply fingerprint_of_absolute_root. intros p. reflexivity.
Defined.

Lemma artifact_root_witness :
  derive_artifact_root "s3://bucket/runs//" "0123456789ab"
  = derive_artifact_root "s3://bucket/runs" "0123456789ab"
  ↔ "0123456789ab" = "0123456789ab"
    ∧ PyStr.rstrip_char "/" "s3://bucket/runs//"
      = PyStr.rstrip_char "/" "s3://bucket/runs".
Proof. apply derive_artifact_root_injective; [done|done|reflexivity]. Defined.

Lemma etag_shape_witness :
  "size:3" ≠ ""
  ∧ (PyStr.startswith "size:" "size:3" = true ∨ String.length "size:3" = 32%nat).
Proof.
  apply (extract_etag_like_shape [("name", MStr "/data/a.csv"); ("size", MInt 3)]).
  reflexivity.
Defined.

Lemma etag_hex_witness :
  _extract_etag_like Samples.etag_info
  = Some (PyStr.lower "D41D8CD98F00B204E9800998ECF8427E")
  ∧ _is_hex32 (PyStr.lower "D41D8CD98F00B204E9800998ECF8427E") = true.
Proof.
  apply (extract_etag_like_hex Samples.etag_info "ETag");
    [set_solver|reflexivity|reflexivity|].
  intros k Hk Hne. unfold etag_keys in Hk.
  repeat (apply elem_of_cons in Hk as [->|Hk]; [done || reflexivity|]).
  by apply elem_of_nil in Hk.
Defined.

Lemma size_fallback_witness :
  (3 ≠ 0 → _extract_etag_like (Samples.local_info "/data/sub/b.csv" (File "1,2"))
           = Some ("size:" ++ PyStr.of_Z 3))
  ∧ (3 = 0 →
     truthy (info_get (Samples.local_info "/data/sub/b.csv" (File "1,2")) "Size")
     = false →
     info_get (Samples.local_info "/data/sub/b.csv" (File "1,2")) "length" = MNone →
     _extract_etag_like (Samples.local_info "/data/sub/b.csv" (File "1,2")) = None).
Proof.
  apply extract_etag_like_size_fallback; [|reflexivity].
  intros k Hk. unfold etag_keys in Hk.
  repeat (apply elem_of_cons in Hk as [->|Hk]; [reflexivity|]).
  by apply elem_of_nil in Hk.
Defined.

Lemma chunk_size_witness :
  (0 < 2 ∨ 2 = -1 →
   _stream_sha256_by_chunks Samples.local_be Samples.data_store
     "/data/sub/b.csv" 2 4
   = Ok (Some (Hashlib.sha256_hex (PyStr.bytes "1,2"))))
  ∧ _stream_sha256_by_chunks Samples.local_be Samples.data_store
      "/data/sub/b.csv" 0 4
    = Ok (Some (Hashlib.sha256_hex []))
  ∧ _stream_sha256_of_path Samples.local_be Samples.data_store "/data/sub/b.csv"
    = Ok (Hashlib.sha256_hex (PyStr.bytes "1,2")).
Proof.
  apply stream_sha256_chunk_size_independent; [reflexivity|cbn; lia].
Defined.

Lemma no_files_witness :
  compute_data_fingerprint Samples.same_path Samples.local_be Samples.data_store
    "/empty/" true 3
  = Raise (RuntimeError "No files discovered under DATA_ROOT=file:///empty/").
Proof.
  apply (fingerprint_no_files Samples.same_path Samples.local_be);
    [intros l; reflexivity|done|reflexivity|].
  intros p Hp. unfold Samples.data_store.
  rewrite !lookup_insert_ne; [done|intros <-; by vm_compute in Hp..].
Defined.

Lemma metadata_witness :
  compute_data_fingerprint Samples.same_path Samples.local_be Samples.data_store
    "/data" false 3
  = compute_data_fingerprint Samples.same_path Samples.no_info_be
      Samples.data_store "/data" false 3.
Proof.
  apply fingerprint_ignores_metadata_without_prefer_etag.
  - intros [] p H; done.
  - reflexivity.
  - reflexivity.
Defined.

Lemma key_order_witness :
  canonical_json_str Samples.float_text
    (VDict [("b", VInt 1); ("a", VList [VStr "x"])])
  = canonical_json_str Samples.float_text
      (VDict [("a", VList [VStr "x"]); ("b", VInt 1)])
  ∧ json_dumps_indent2 Samples.float_text
      (VDict [("b", VInt 1); ("a", VList [VStr "x"])])
    = json_dumps_indent2 Samples.float_text
        (VDict [("a", VList [VStr "x"]); ("b", VInt 1)]).
Proof.
  apply canonical_json_key_order.
  - apply (bool_decide_unpack _). by vm_compute.
  - apply perm_swap.
Defined.

Lemma canonical_fields_witness :
  (build_canonical_config Samples.float_text Samples.no_repr
     Samples.declared_cfg).*1
  = filter (fun k => k ≠ "TEST_SIZE" ∧ k ≠ "RETRAIN_FROM_MODEL_URI")
           IDENTITY_VARS
  ∧ length (build_canonical_config Samples.float_text Samples.no_repr
              Samples.declared_cfg) = 37%nat.
Proof.
  apply build_canonical_config_fields. intros k.
  unfold Samples.declared_cfg.
  rewrite <- elem_of_dom, dom_list_to_map_L, elem_of_list_to_set.
  assert (((fun k : string => (k, VNone)) <$> PlatformConfig_fields).*1
          = PlatformConfig_fields) as -> by reflexivity.
  done.
Defined.

Lemma empty_string_witness :
  canonical_json_and_hash Samples.float_text Samples.no_repr ∅
    (<["TIME_COLUMN" := VStr ""]> Samples.base_cfg) (Some "f")
  = canonical_json_and_hash Samples.float_text Samples.no_repr ∅
      (<["TIME_COLUMN" := VNone]> Samples.base_cfg) (Some "f").
Proof. by apply empty_string_hashes_like_none. Defined.

Lemma list_field_witness :
  canonical_json_and_hash Samples.float_text Samples.no_repr ∅
    (<["LAG_PERIODS" := VList [VInt 3; VInt 1; VInt 2; VInt 3]]> Samples.base_cfg)
    (Some "f")
  = canonical_json_and_hash Samples.float_text Samples.no_repr ∅
      (<["LAG_PERIODS" := VList [VStr "1"; VStr "2"; VStr "3"]]> Samples.base_cfg)
      (Some "f").
Proof.
  apply list_field_order_insensitive. intros x.
  change (x ∈ ["3"; "1"; "2"; "3"] ↔ x ∈ ["1"; "2"; "3"]). set_solver.
Defined.

Lemma frame_witness :
  let out := _atomic_write_json Samples.float_text Samples.no_rename_be
               (VDict []) (Samples.run_root ++ "/config_snapshot.json")
               Samples.marker_world in
  w_store out.2 !! "/runs/ml8s_training_runs/0123456789ab/success.marker"
  = w_store Samples.marker_world
    !! "/runs/ml8s_training_runs/0123456789ab/success.marker"
  ∧ w_environ out.2 = w_environ Samples.marker_world
  ∧ w_log out.2 = w_log Samples.marker_world.
Proof.
  apply atomic_write_json_frame; by vm_compute.
Defined.

Lemma bootstrap_outcome_witness :
  let out := bootstrap_and_hash Samples.no_float Samples.float_text
               Samples.same_path Samples.no_repr Samples.local_be "t"
               Samples.full_parse Samples.loads_empty
               (World Samples.data_store ∅ []) in
  match out.1 with
  | Ok b =>
      boot_run_id b = "8579b47cec8d"
      ∧ w_environ out.2 !! "RUN_ID" = Some (boot_run_id b)
      ∧ w_environ out.2 !! "ARTIFACT_ROOT" = Some (boot_artifact_root b)
      ∧ w_environ out.2 !! "FULL_CONFIG_HASH" = Some (boot_full_config_hash b)
  | Raise _ => False
  end.
Proof.
  intros out.
  pose proof (bootstrap_and_hash_outcome Samples.no_float Samples.float_text
                Samples.same_path Samples.no_repr Samples.local_be "t"
                Samples.full_parse Samples.loads_empty
                (World Samples.data_store ∅ [])) as H.
  fold out in H.
  assert (Hid : match out.1 with
                | Ok b => boot_run_id b = "8579b47cec8d"
                | Raise _ => False
                end) by (by vm_compute).
  destruct out as [[b|e] w']; cbn [fst snd] in *; [|done].
  destruct H as (-> & _). split_and!; by simplify_map_eq.
Defined.

Lemma load_from_env_witness :
  load_from_env Samples.no_float Samples.float_text Samples.no_repr
    Samples.full_parse (Some Samples.two_environs.1) Samples.marker_world
  = load_from_env Samples.no_float Samples.float_text Samples.no_repr
      Samples.full_parse (Some Samples.two_environs.2) Samples.marker_world
  ∧ load_from_env Samples.no_float Samples.float_text Samples.no_repr
      Samples.full_parse (Some ∅) Samples.marker_world
    = load_from_env Samples.no_float Samples.float_text Samples.no_repr
        Samples.full_parse None Samples.marker_world
  ∧ w_store (load_from_env Samples.no_float Samples.float_text Samples.no_repr
               Samples.full_parse (Some Samples.two_environs.1)
               Samples.marker_world).2
    = w_store Samples.marker_world
  ∧ w_environ (load_from_env Samples.no_float Samples.float_text
                 Samples.no_repr Samples.full_parse
                 (Some Samples.two_environs.1) Samples.marker_world).2
    = w_environ Samples.marker_world.
Proof.
  apply load_from_env_reads_declared_fields.
  - apply insert_non_empty.
  - apply insert_non_empty.
  - intros k Hk. cbn [fst snd Samples.two_environs].
    assert (Hno : ("HOME" ∉ PlatformConfig_fields)
                  ∧ ("PATH" ∉ PlatformConfig_fields)).
    { split; apply (bool_decide_unpack _); by vm_compute. }
    rewrite !(lookup_insert_ne _ "HOME"), !(lookup_insert_ne _ "PATH");
      [done|intros <-; tauto..].
Defined.

Lemma flyte_bootstrap_witness :
  let w := World Samples.data_store ∅ [] in
  match bootstrap_and_hash Samples.no_float Samples.float_text
          Samples.same_path Samples.no_repr Samples.local_be "t"
          Samples.full_parse Samples.loads_empty w,
        flyte_bootstrap Samples.no_float Samples.float_text Samples.same_path
          Samples.no_repr Samples.local_be "t" Samples.full_parse
          Samples.loads_empty w with
  | (Ok b, wb), (Ok f, wf) =>
      fb_canonical_json f = boot_canonical_json b
      ∧ fb_full_config_hash f = boot_full_config_hash b
      ∧ fb_run_id f = boot_run_id b
      ∧ fb_artifact_root f = boot_artifact_root b
      ∧ fb_data_fingerprint f = boot_data_fingerprint b
      ∧ w_store wf = w_store wb
  | (Raise e1, wb), (Raise e2, wf) => e1 = e2 ∧ w_store wf = w_store wb
  | _, _ => False
  end.
Proof.
  intros w.
  apply (flyte_bootstrap_agrees Samples.no_float Samples.float_text
           Samples.same_path Samples.no_repr Samples.local_be "t"
           Samples.full_parse Samples.loads_empty w
           (World Samples.data_store ∅
              [(INFO, "Loaded PlatformConfig task_type=classification pipeline_mode=full run_seed=42")])
           Samples.full_cfg "file:///data" "file:///runs");
    reflexivity.
Defined.

Lemma save_then_load_witness :
  let saved := save_json_as Samples.float_text Samples.local_be
                 "Failed atomic save for " "Saved FeatureOutput manifest to "
                 (VList [VInt 1; VInt 2]) "file:///runs/m.json"
                 (World ∅ ∅ []) in
  (load_json_as Samples.local_be Samples.loads_list "FeatureOutput" Ok
     "file:///runs/m.json" saved.2).1
  = Ok (VList [VInt 1; VInt 2]).
Proof.
  intros saved.
  apply (save_then_load_json Samples.float_text Samples.local_be
           Samples.loads_list "Failed atomic save for "
           "Saved FeatureOutput manifest to " "FeatureOutput" Ok
           (VList [VInt 1; VInt 2]) "file:///runs/m.json"
           "file:///runs/m.json" (World ∅ ∅ []) saved.2);
    by vm_compute.
Defined.


Lemma single_period_witness :
  parse_lag_periods (_norm_scalar Samples.no_float (Some " 7 "))
  = ValueError "LAG_PERIODS must be comma-separated ints or list"
  ∧ parse_rolling_windows (_norm_scalar Samples.no_float (Some " 7 "))
    = ValueError "ROLLING_WINDOWS must be comma-separated ints or list".
Proof.
  apply single_integer_period_rejected;
    [unfold max_str_digits; cbn; lia | reflexivity].
Defined.

